(** * Water-risk dashboard: the spreadsheet loader and its consumers

    A shallow embedding of [utils.py] ([get_metric_columns], [load_excel])
    and of the row lookup of [make_bar_chart] in [app.py], together with the
    part of the pandas API these functions call.

    Conventions of the embedding.
    - A Python [str] is a [string]; each character stands for a code point
      below 256.  [isspace] is Python's [str.isspace] on that range.
    - A column label is a [string]: the loader calls [startswith] on
      [df.columns[0]], so it treats header labels as text.
    - A cell is null ([NaN]), text or an integer number.
    - A [DataFrame] is row-major: the column labels, and the rows, each
      carrying its index label and its cells.
    - [load_excel] touches the file system twice: [os.path.isfile] and
      [pd.read_excel].  Both are answered by a [World]; every call is
      recorded in an event log threaded through the [IO] monad, and a Python
      exception is the [Raise] outcome. *)

From Stdlib Require Import List String Ascii Bool Arith ZArith Lia.
From Stdlib Require Import DecimalString Sorted.
Import ListNotations.

Local Open Scope string_scope.
Local Open Scope list_scope.

(** ** Python strings *)

Module PyStr.

(** [str.isspace] for one character with code point below 256. *)
Definition isspace (c : ascii) : bool :=
  let n := nat_of_ascii c in
  (((9 <=? n) && (n <=? 13)) || ((28 <=? n) && (n <=? 32))
   || (n =? 133) || (n =? 160))%nat.

(** [s.lstrip()] *)
Fixpoint lstrip (s : string) : string :=
  match s with
  | EmptyString => EmptyString
  | String c s' => if isspace c then lstrip s' else s
  end.

(** [s.rstrip()] *)
Fixpoint rstrip (s : string) : string :=
  match s with
  | EmptyString => EmptyString
  | String c s' =>
      match rstrip s' with
      | EmptyString => if isspace c then EmptyString else String c EmptyString
      | t => String c t
      end
  end.

(** [s.strip()] *)
Definition strip (s : string) : string := rstrip (lstrip s).

(** [s.startswith(p)] *)
Definition startswith (s p : string) : bool := String.prefix p s.

(** Every character of [s] is whitespace. *)
Fixpoint all_space (s : string) : bool :=
  match s with
  | EmptyString => true
  | String c s' => isspace c && all_space s'
  end.

(** The last character of [s], if any. *)
Fixpoint last_char (s : string) : option ascii :=
  match s with
  | EmptyString => None
  | String c EmptyString => Some c
  | String _ s' => last_char s'
  end.

Definition first_char (s : string) : option ascii :=
  match s with
  | EmptyString => None
  | String c _ => Some c
  end.

Definition not_space (o : option ascii) : bool :=
  match o with
  | None => true
  | Some c => negb (isspace c)
  end.

(** [s] neither begins nor ends with whitespace. *)
Definition trimmed (s : string) : bool :=
  not_space (first_char s) && not_space (last_char s).

End PyStr.

(** ** Cells, series and data frames *)

Inductive Cell : Type :=
| NaN : Cell
| Text (s : string) : Cell
| Num (z : Z) : Cell.

(** [pd.isna] on a scalar. *)
Definition isna (v : Cell) : bool :=
  match v with
  | NaN => true
  | _ => false
  end.

Definition notna (v : Cell) : bool := negb (isna v).

(** Python's [str(v)], as [Series.astype(str)] applies it to each value. *)
Definition to_str (v : Cell) : string :=
  match v with
  | NaN => "nan"
  | Text s => s
  | Num z => NilZero.string_of_int (Z.to_int z)
  end.

Definition Row : Type := (nat * list Cell)%type.

Definition row_label (r : Row) : nat := fst r.
Definition row_cells (r : Row) : list Cell := snd r.

Record DataFrame : Type := mkDataFrame {
  columns : list string;
  rows : list Row
}.

(** A series: index labels and values. *)
Definition Series (A : Type) : Type := list (nat * A).

(** [df.empty]: some axis has length zero. *)
Definition empty (df : DataFrame) : bool :=
  match columns df, rows df with
  | [], _ => true
  | _, [] => true
  | _, _ => false
  end.

(** The cell of a row at a column position ([NaN] past the end, which a
    rectangular frame never reaches). *)
Definition cell_at (p : nat) (r : Row) : Cell := nth p (row_cells r) NaN.

(** Every row has one cell per column. *)
Definition rectangular (df : DataFrame) : bool :=
  forallb (fun r => (List.length (row_cells r) =? List.length (columns df))%nat)
          (rows df).

(** The body rows of a parse have one cell per header label. *)
Definition rectangular_cells (width : nat) (vals : list (list Cell)) : bool :=
  forallb (fun cells => (List.length cells =? width)%nat) vals.

(** ** utils.get_metric_columns *)

(** [df is None or df.empty or len(df.columns) < 2], then
    [list(df.columns[1:])]. *)
Definition get_metric_columns (df : option DataFrame) : list string :=
  match df with
  | None => []
  | Some d =>
      if empty d || (List.length (columns d) <? 2)%nat then []
      else tl (columns d)
  end.

(** ** Exceptions and the file system *)

(** Why [pd.read_excel] can fail on a file that exists. *)
Inductive ReadFailure : Type :=
| CorruptFile
| MissingSheet
| ColumnsOutOfBounds.

Inductive Exception : Type :=
| FileNotFoundError
| ExcelReadError (why : ReadFailure)
| IndexError
| KeyError
| AttributeError.

(** A Python call either raises or returns. *)
Inductive Outcome (A : Type) : Type :=
| Raise (e : Exception)
| Return (a : A).

Arguments Raise {A} e.
Arguments Return {A} a.

Definition obind {A B : Type} (m : Outcome A) (k : A -> Outcome B)
  : Outcome B :=
  match m with
  | Raise e => Raise e
  | Return a => k a
  end.

Notation "x <~ m ;; k" := (obind m (fun x => k))
  (at level 61, m at next level, right associativity).

(** What the parser makes of [Sheet1!F:N] for one header row: the header
    labels and the body rows below it.  pandas names a blank header cell
    after its position in the sheet, [Unnamed: 5] for column F; the labels
    it returns are pairwise distinct, but two of them may differ in
    surrounding whitespace only.  A parse is a read whose header cells are
    all text or blank; a header cell that holds a number is labelled with
    the number and is outside this embedding. *)
Record Parsed : Type := mkParsed {
  header : list string;
  body : list (list Cell)
}.

(** The state of the file system during a run: whether
    [DEFAULT_DATA_PATH] is a file, and what parsing it yields for each
    header row. *)
Record World : Type := mkWorld {
  isfile : bool;
  parse : nat -> ReadFailure + Parsed
}.

(** The file-system calls a run makes, in order. *)
Inductive Event : Type :=
| IsFile
| ReadExcel (header_row : nat).

Definition Log : Type := list Event.

(** Computations that log their file-system calls and may raise. *)
Definition IO (A : Type) : Type := Log -> Outcome A * Log.

Definition ret {A : Type} (a : A) : IO A := fun l => (Return a, l).

Definition bind {A B : Type} (m : IO A) (k : A -> IO B) : IO B :=
  fun l =>
    match m l with
    | (Raise e, l') => (Raise e, l')
    | (Return a, l') => k a l'
    end.

Definition lift {A : Type} (o : Outcome A) : IO A := fun l => (o, l).

Definition emit (ev : Event) : IO unit := fun l => (Return tt, l ++ [ev]).

Notation "x <- m ;; k" := (bind m (fun x => k))
  (at level 61, m at next level, right associativity).

Definition is_read (ev : Event) : bool :=
  match ev with
  | ReadExcel _ => true
  | IsFile => false
  end.

(** The header rows of the reads recorded in a log. *)
Definition reads (l : Log) : list nat :=
  flat_map (fun ev => match ev with ReadExcel h => [h] | IsFile => [] end) l.

(** [os.path.isfile(DEFAULT_DATA_PATH)] *)
Definition os_path_isfile (w : World) : IO bool :=
  _ <- emit IsFile ;; ret (isfile w).

(** ** The pandas calls of the loader *)

Module pd.

(** A fresh [RangeIndex] on the body rows. *)
Definition range_index (vals : list (list Cell)) : list Row :=
  combine (seq 0 (List.length vals)) vals.

(** [pd.read_excel(DEFAULT_DATA_PATH, sheet_name="Sheet1", usecols="F:N",
    header=header_row, engine="openpyxl")] *)
Definition read_excel (w : World) (header_row : nat) : IO DataFrame :=
  _ <- emit (ReadExcel header_row) ;;
  lift (if isfile w then
          match parse w header_row with
          | inl why => Raise (ExcelReadError why)
          | inr p => Return (mkDataFrame (header p) (range_index (body p)))
          end
        else Raise FileNotFoundError).

(** [index[i]] *)
Definition index_getitem (cols : list string) (i : nat) : Outcome string :=
  match nth_error cols i with
  | Some c => Return c
  | None => Raise IndexError
  end.

(** [index[1:]] *)
Definition index_from1 (cols : list string) : list string := tl cols.

(** [index.str.strip()] *)
Definition index_str_strip (cols : list string) : list string :=
  map PyStr.strip cols.

(** [df.columns = cols] *)
Definition set_columns (df : DataFrame) (cols : list string) : DataFrame :=
  mkDataFrame cols (rows df).

(** [index.get_indexer_for([label])]: every position that holds [label]. *)
Fixpoint positions_from (p : nat) (cols : list string) (label : string)
  : list nat :=
  match cols with
  | [] => []
  | c :: cols' =>
      if String.eqb c label then p :: positions_from (S p) cols' label
      else positions_from (S p) cols' label
  end.

Definition get_indexer_for (cols : list string) (label : string)
  : list nat := positions_from 0 cols label.

(** [df.dropna(subset=[label])]: keep the rows that are not null in any
    column carrying [label]. *)
Definition dropna (df : DataFrame) (label : string) : Outcome DataFrame :=
  match get_indexer_for (columns df) label with
  | [] => Raise KeyError
  | ps =>
      Return (mkDataFrame (columns df)
                (filter (fun r => forallb (fun p => notna (cell_at p r)) ps)
                   (rows df)))
  end.

(** What [df[label]] selects: a series when one column carries the label,
    a frame when several do. *)
Inductive Selection (A : Type) : Type :=
| OneColumn (s : Series A)
| SubFrame (cols : list string) (d : list (nat * list A)).

Arguments OneColumn {A} s.
Arguments SubFrame {A} cols d.

(** [df[label]] *)
Definition getitem (df : DataFrame) (label : string)
  : Outcome (Selection Cell) :=
  match get_indexer_for (columns df) label with
  | [] => Raise KeyError
  | [p] => Return (OneColumn (map (fun r => (row_label r, cell_at p r))
                                (rows df)))
  | ps => Return (SubFrame (map (fun _ => label) ps)
                    (map (fun r => (row_label r,
                                    map (fun p => cell_at p r) ps))
                       (rows df)))
  end.

(** [x.astype(str)] *)
Definition astype_str (x : Selection Cell) : Selection string :=
  match x with
  | OneColumn s => OneColumn (map (fun iv => (fst iv, to_str (snd iv))) s)
  | SubFrame cols d =>
      SubFrame cols (map (fun iv => (fst iv, map to_str (snd iv))) d)
  end.

(** [x.str.strip()]: a frame has no [.str] accessor. *)
Definition str_strip (x : Selection string) : Outcome (Series string) :=
  match x with
  | OneColumn s =>
      Return (map (fun iv => (fst iv, PyStr.strip (snd iv))) s)
  | SubFrame _ _ => Raise AttributeError
  end.

(** [s != other] *)
Definition series_ne (s : Series string) (other : string) : Series bool :=
  map (fun iv => (fst iv, negb (String.eqb (snd iv) other))) s.

(** [s == other] *)
Definition series_eq (s : Series string) (other : string) : Series bool :=
  map (fun iv => (fst iv, String.eqb (snd iv) other)) s.

(** [df[mask]] for a mask computed from [df] itself, hence on the same
    index: keep the rows whose mask entry is [True]. *)
Fixpoint select_rows (rs : list Row) (mask : Series bool) : list Row :=
  match rs, mask with
  | r :: rs', (_, b) :: mask' =>
      if b then r :: select_rows rs' mask' else select_rows rs' mask'
  | _, _ => []
  end.

Definition getitem_mask (df : DataFrame) (mask : Series bool) : DataFrame :=
  mkDataFrame (columns df) (select_rows (rows df) mask).

(** [df.reset_index(drop=True)] *)
Definition reset_index (df : DataFrame) : DataFrame :=
  mkDataFrame (columns df) (range_index (map row_cells (rows df))).

(** [df.iloc[0]] on a frame with at least one row. *)
Definition iloc0 (df : DataFrame) : Outcome Row :=
  match rows df with
  | r :: _ => Return r
  | [] => Raise IndexError
  end.

End pd.

(** ** utils.load_excel *)

(** The local helper [_read(header_row=2)]. *)
Definition _read (w : World) (header_row : nat) : IO DataFrame :=
  pd.read_excel w header_row.

Definition load_excel (w : World) : IO (option DataFrame) :=
  present <- os_path_isfile w ;;
  if negb present then ret None
  else
    df <- _read w 2 ;;
    first <- lift (pd.index_getitem (columns df) 0) ;;
    df <- (if PyStr.startswith first "Unnamed" then _read w 3 else ret df) ;;
    let df := pd.set_columns df (pd.index_str_strip (columns df)) in
    city_col <- lift (pd.index_getitem (columns df) 0) ;;
    df <- lift (pd.dropna df city_col) ;;
    keys <- lift (sel <~ pd.getitem df city_col ;;
                  pd.str_strip (pd.astype_str sel)) ;;
    let df := pd.getitem_mask df (pd.series_ne keys EmptyString) in
    ret (Some (pd.reset_index df)).

(** One call of [load_excel] from an empty log. *)
Definition run_load (w : World) : Outcome (option DataFrame) * Log :=
  load_excel w [].

(** ** app.py: the row lookup of make_bar_chart *)

(** Lines 168-171 of [make_bar_chart], with [city_col = df.columns[0]]:
    the rows whose key, as stripped text, is [city_name]; [None] when there
    is none, else the first of them. *)
Definition make_bar_chart_row (df : DataFrame) (city_name : string)
  : Outcome (option Row) :=
  city_col <~ pd.index_getitem (columns df) 0 ;;
  sel <~ pd.getitem df city_col ;;
  keys <~ pd.str_strip (pd.astype_str sel) ;;
  let row := pd.getitem_mask df (pd.series_eq keys city_name) in
  if empty row then Return None
  else (r <~ pd.iloc0 row ;; Return (Some r)).

(** Two calls in a row, the file untouched in between. *)
Definition load_excel_twice (w : World)
  : IO (option DataFrame * option DataFrame) :=
  first <- load_excel w ;;
  second <- load_excel w ;;
  ret (first, second).

(** ** Derived notions and closed forms *)

(** The key of a body row: its first cell. *)
Definition key (cells : list Cell) : Cell := nth 0 cells NaN.

(** A key is blank when it is null, or empty once turned to text and
    stripped. *)
Definition blank_key (v : Cell) : bool :=
  isna v || String.eqb (PyStr.strip (to_str v)) EmptyString.

Definition keeps (cells : list Cell) : bool := negb (blank_key (key cells)).

(** The placeholder test of the loader, on a column name. *)
Definition is_placeholder (name : string) : bool :=
  PyStr.startswith name "Unnamed".

(** The first read parsed, and its first column name is a placeholder. *)
Definition first_is_placeholder (r : ReadFailure + Parsed) : bool :=
  match r with
  | inr p =>
      match header p with
      | c :: _ => is_placeholder c
      | [] => false
      end
  | inl _ => false
  end.

(** Lines 38-43 in closed form, on what one read parsed: strip the header,
    fail when there is no column or when the key label occurs twice, else
    keep the rows with a non-blank key under a fresh index. *)
Definition normalized (p : Parsed) : Outcome (option DataFrame) :=
  match map PyStr.strip (header p) with
  | [] => Raise IndexError
  | k :: others =>
      if existsb (String.eqb k) others then Raise AttributeError
      else Return (Some (mkDataFrame (k :: others)
                           (pd.range_index (filter keeps (body p)))))
  end.

(** [load_excel] in closed form: the outcome and the events of one call. *)
Definition load_excel_cases (w : World) : Outcome (option DataFrame) * Log :=
  if isfile w then
    match parse w 2 with
    | inl why => (Raise (ExcelReadError why), [IsFile; ReadExcel 2])
    | inr p2 =>
        match header p2 with
        | [] => (Raise IndexError, [IsFile; ReadExcel 2])
        | c :: _ =>
            if is_placeholder c then
              match parse w 3 with
              | inl why =>
                  (Raise (ExcelReadError why),
                   [IsFile; ReadExcel 2; ReadExcel 3])
              | inr p3 => (normalized p3, [IsFile; ReadExcel 2; ReadExcel 3])
              end
            else (normalized p2, [IsFile; ReadExcel 2])
        end
    end
  else (Return None, [IsFile]).

(** The rows of [small] occur in [big] in the same relative order. *)
Inductive subsequence {A : Type} : list A -> list A -> Prop :=
| sub_nil : subsequence [] []
| sub_skip (x : A) (small big : list A) :
    subsequence small big -> subsequence small (x :: big)
| sub_keep (x : A) (small big : list A) :
    subsequence small big -> subsequence (x :: small) (x :: big).

Definition cell_eqb (a b : Cell) : bool :=
  match a, b with
  | NaN, NaN => true
  | Text s, Text t => String.eqb s t
  | Num x, Num y => Z.eqb x y
  | _, _ => false
  end.

(** The stripped text of a row's key, as the comparison view matches it. *)
Definition key_text (r : Row) : string :=
  PyStr.strip (to_str (key (row_cells r))).

(** ** Sample workbooks *)

Module Samples.

Definition absent : World := mkWorld false (fun _ => inl CorruptFile).

(** Row 3 of the range is blank, row 4 holds the labels. *)
Definition header_in_row4 : World :=
  mkWorld true (fun h =>
    match h with
    | 2 => inr (mkParsed ["Unnamed: 5"; "Unnamed: 6"]
                  [[Text "City"; Text "  Water Stress  "];
                   [Text "Austin"; Num 3]; [Text "Reno"; Num 4]])
    | 3 => inr (mkParsed ["City"; "  Water Stress  "]
                  [[Text "Austin"; Num 3]; [Text "Reno"; Num 4]])
    | _ => inl CorruptFile
    end).

(** Labels in row 3; three body rows, the middle one with a blank key. *)
Definition three_rows : World :=
  mkWorld true (fun h =>
    match h with
    | 2 => inr (mkParsed ["City"; "Score"; "Rank"]
                  [[Text "Austin"; Num 7; Num 1];
                   [Text "   "; Num 8; Num 2];
                   [Text "Boise"; Num 9; Num 3]])
    | _ => inl CorruptFile
    end).

(** Every kind of blank key, two rows for Austin, a padded key. *)
Definition mixed_keys : World :=
  mkWorld true (fun h =>
    match h with
    | 2 => inr (mkParsed ["City"; "Score"]
                  [[Text "  Austin  "; Num 1];
                   [Text EmptyString; Num 2];
                   [NaN; Num 3];
                   [Text "   "; Num 4];
                   [Text "Austin"; Num 5];
                   [Num 42; Num 6]])
    | _ => inl CorruptFile
    end).

(** Two rows for the same city. *)
Definition duplicates : World :=
  mkWorld true (fun h =>
    match h with
    | 2 => inr (mkParsed ["City"; "Score"]
                  [[Text "Reno"; Num 1];
                   [Text "Austin"; Num 2];
                   [Text "Austin"; Num 3]])
    | _ => inl CorruptFile
    end).

(** The sheet is missing. *)
Definition no_sheet : World := mkWorld true (fun _ => inl MissingSheet).

(** Row 3 blank, and nothing parses from row 4 on. *)
Definition broken_row4 : World :=
  mkWorld true (fun h =>
    match h with
    | 2 => inr (mkParsed ["Unnamed: 5"] [[Text "x"]])
    | _ => inl CorruptFile
    end).

Definition city_score_rank : DataFrame :=
  mkDataFrame ["City"; "Score"; "Rank"] [(0, [Text "Austin"; Num 7; Num 1])].

Definition city_only : DataFrame :=
  mkDataFrame ["City"] [(0, [Text "Austin"])].

End Samples.

(** ** utils.setup_sidebar and the start of app.py *)

(** [st.session_state]: the values stored under each key.  The only key
    the code writes is ["df"]; its value is a table or [None]. *)
Definition SessionState : Type := list (string * option DataFrame).

(** [st.session_state[k] = v] *)
Fixpoint session_setitem (s : SessionState) (k : string)
  (v : option DataFrame) : SessionState :=
  match s with
  | [] => [(k, v)]
  | (k', v') :: s' =>
      if String.eqb k' k then (k', v) :: s'
      else (k', v') :: session_setitem s' k v
  end.

(** [st.session_state.get(k)]: [None] for a key that is not set. *)
Fixpoint session_get (s : SessionState) (k : string) : option DataFrame :=
  match s with
  | [] => None
  | (k', v') :: s' => if String.eqb k' k then v' else session_get s' k
  end.

(** What a script run works on: the session state, the captions written to
    the sidebar, and the log of file-system calls. *)
Record Page : Type := mkPage {
  session_state : SessionState;
  sidebar : list string;
  files : Log
}.

(** [str(n)] for a length. *)
Definition str_of_len (n : nat) : string :=
  NilZero.string_of_uint (Nat.to_uint n).

(** [f"Loaded: **{len(df)}** cities"] *)
Definition loaded_caption (df : DataFrame) : string :=
  ("Loaded: **" ++ str_of_len (List.length (rows df)) ++ "** cities")%string.

(** [setup_sidebar()]: load, store under ["df"], caption when a table came
    back.  An exception of [load_excel] leaves before the assignment. *)
Definition setup_sidebar (w : World) (pg : Page) : Outcome unit * Page :=
  match load_excel w (files pg) with
  | (Raise e, l) => (Raise e, mkPage (session_state pg) (sidebar pg) l)
  | (Return df, l) =>
      let s := session_setitem (session_state pg) "df" df in
      match df with
      | Some d => (Return tt, mkPage s (sidebar pg ++ [loaded_caption d]) l)
      | None => (Return tt, mkPage s (sidebar pg) l)
      end
  end.

(** Lines 34-36 of [app.py]: [setup_sidebar()] and then
    [df = st.session_state.get("df")]. *)
Definition script_df (w : World) (pg : Page)
  : Outcome (option DataFrame) * Page :=
  match setup_sidebar w pg with
  | (Raise e, pg') => (Raise e, pg')
  | (Return _, pg') => (Return (session_get (session_state pg') "df"), pg')
  end.

(** ** app.py: the City Comparison view *)

Definition METRIC_COLORS : list string :=
  ["#FFFFFF"; "#CCCCCC"; "#999999"; "#666666"; "#444444"; "#2A2A2A"].

(** [series.dropna()] on what [df[label]] selected. *)
Definition sel_dropna (x : pd.Selection Cell) : pd.Selection Cell :=
  match x with
  | pd.OneColumn s => pd.OneColumn (filter (fun iv => notna (snd iv)) s)
  | pd.SubFrame cols d =>
      pd.SubFrame cols (filter (fun iv => forallb notna (snd iv)) d)
  end.

(** [series.unique()]: the values in order of first appearance. *)
Fixpoint unique_from (seen : list string) (l : list string) : list string :=
  match l with
  | [] => []
  | x :: l' =>
      if existsb (String.eqb x) seen then unique_from seen l'
      else x :: unique_from (x :: seen) l'
  end.

Definition unique (l : list string) : list string := unique_from [] l.

(** [list.sort()] on strings: a stable sort by code points. *)
Fixpoint insert_sorted (x : string) (l : list string) : list string :=
  match l with
  | [] => [x]
  | y :: l' => if String.leb x y then x :: l else y :: insert_sorted x l'
  end.

Definition list_sort (l : list string) : list string :=
  fold_right insert_sorted [] l.

(** Strictly before, in the order of code points that [<] on [str] is. *)
Definition before (a b : string) : Prop := String.ltb a b = true.

(** Lines 139-142: [cities_all], the options of the city selector. *)
Definition cities_all (df : DataFrame) : Outcome (list string) :=
  city_col <~ pd.index_getitem (columns df) 0 ;;
  sel <~ pd.getitem df city_col ;;
  keys <~ pd.str_strip (pd.astype_str (sel_dropna sel)) ;;
  Return (list_sort (unique (map snd keys))).

(** A Python [dict] from metric name to colour, in insertion order. *)
Definition Dict : Type := list (string * string).

(** [d[k] = v] *)
Fixpoint dict_setitem (d : Dict) (k v : string) : Dict :=
  match d with
  | [] => [(k, v)]
  | (k', v') :: d' =>
      if String.eqb k' k then (k', v) :: d'
      else (k', v') :: dict_setitem d' k v
  end.

(** [d[k]] *)
Fixpoint dict_getitem (d : Dict) (k : string) : Outcome string :=
  match d with
  | [] => Raise KeyError
  | (k', v') :: d' => if String.eqb k' k then Return v' else dict_getitem d' k
  end.

(** Line 165: [{m: METRIC_COLORS[i % len(METRIC_COLORS)] for i, m in
    enumerate(selected_metrics)}], from position [i] on. *)
Fixpoint metric_to_color_from (i : nat) (selected_metrics : list string)
  (d : Dict) : Dict :=
  match selected_metrics with
  | [] => d
  | m :: ms =>
      metric_to_color_from (S i) ms
        (dict_setitem d m
           (nth (i mod List.length METRIC_COLORS) METRIC_COLORS EmptyString))
  end.

Definition metric_to_color (selected_metrics : list string) : Dict :=
  metric_to_color_from 0 selected_metrics [].

(** [[f(m) for m in ms]] for a call that may raise. *)
Fixpoint for_each {A B : Type} (f : A -> Outcome B) (ms : list A)
  : Outcome (list B) :=
  match ms with
  | [] => Return []
  | m :: ms' => b <~ f m ;; bs <~ for_each f ms' ;; Return (b :: bs)
  end.

(** What [row[m]] gives on the row series, whose index is the column
    labels: the cell when one column carries [m], the cells when several
    do. *)
Inductive Picked : Type :=
| Scalar (v : Cell)
| Several (vs : list Cell).

(** [row[m]] *)
Definition row_getitem (cols : list string) (r : Row) (m : string)
  : Outcome Picked :=
  match pd.get_indexer_for cols m with
  | [] => Raise KeyError
  | [p] => Return (Scalar (cell_at p r))
  | ps => Return (Several (map (fun p => cell_at p r) ps))
  end.

(** The data of the bar chart of one city: its title and, per bar, the
    metric, the value and the colour.  The bar labels ([text]), which only
    format the values, and the fixed layout are left out. *)
Record Figure : Type := mkFigure {
  title : string;
  x_vals : list string;
  y_vals : list Picked;
  colors : list string
}.

(** [make_bar_chart(city_name)], closed over [df], [selected_metrics] and
    [metric_to_color]. *)
Definition make_bar_chart (df : DataFrame) (selected_metrics : list string)
  (m2c : Dict) (city_name : string) : Outcome (option Figure) :=
  found <~ make_bar_chart_row df city_name ;;
  match found with
  | None => Return None
  | Some row =>
      ys <~ for_each (row_getitem (columns df) row) selected_metrics ;;
      cs <~ for_each (dict_getitem m2c) selected_metrics ;;
      Return (Some (mkFigure city_name selected_metrics ys cs))
  end.

(** Exceptions of the view: those of the loader's calls, and division by
    zero. *)
Inductive ViewError : Type :=
| Lib (e : Exception)
| ZeroDivisionError.

Inductive Result (A : Type) : Type :=
| Err (e : ViewError)
| Ok (a : A).

Arguments Err {A} e.
Arguments Ok {A} a.

Definition rbind {A B : Type} (m : Result A) (k : A -> Result B) : Result B :=
  match m with
  | Err e => Err e
  | Ok a => k a
  end.

Notation "x <-! m ;; k" := (rbind m (fun x => k))
  (at level 61, m at next level, right associativity).

Definition of_outcome {A : Type} (o : Outcome A) : Result A :=
  match o with
  | Raise e => Err (Lib e)
  | Return a => Ok a
  end.

(** [a // b] on non-negative integers. *)
Definition floordiv (a b : nat) : Result nat :=
  match b with
  | 0 => Err ZeroDivisionError
  | _ => Ok (a / b)
  end.

(** What the view puts on the page. *)
Inductive Widget : Type :=
| Title (s : string)
| Markdown (s : string)
| Warning (s : string)
| Info (s : string)
| Multiselect (label : string) (options default : list string)
    (max_selections : nat)
| Columns (n : nat)
| PlotlyChart (c : nat) (fig : Figure).

(** The inner loop, [for c in range(cols_per_row)], over the [c] left. *)
Fixpoint chart_row (chart : string -> Outcome (option Figure))
  (selected_cities : list string) (cols_per_row r : nat) (cs : list nat)
  : Result (list Widget) :=
  match cs with
  | [] => Ok []
  | c :: cs' =>
      let idx := r * cols_per_row + c in
      if (List.length selected_cities <=? idx)%nat then Ok []
      else
        city_name <-! of_outcome (pd.index_getitem selected_cities idx) ;;
        fig <-! of_outcome (chart city_name) ;;
        rest <-! chart_row chart selected_cities cols_per_row r cs' ;;
        Ok (match fig with
            | Some f => PlotlyChart c f :: rest
            | None => rest
            end)
  end.

(** The outer loop, [for r in range(rows)], over the [r] left. *)
Fixpoint chart_rows (chart : string -> Outcome (option Figure))
  (selected_cities : list string) (cols_per_row : nat) (rs : list nat)
  : Result (list Widget) :=
  match rs with
  | [] => Ok []
  | r :: rs' =>
      here <-! chart_row chart selected_cities cols_per_row r
                 (seq 0 cols_per_row) ;;
      below <-! chart_rows chart selected_cities cols_per_row rs' ;;
      Ok (Columns cols_per_row :: here ++ below)
  end.

(** Lines 219-232: the grid of charts. *)
Definition chart_grid (chart : string -> Outcome (option Figure))
  (selected_cities : list string) : Result (list Widget) :=
  let n_cities := List.length selected_cities in
  let cols_per_row := if (2 <? n_cities)%nat then 2 else n_cities in
  rows <-! floordiv (n_cities + cols_per_row - 1) cols_per_row ;;
  chart_rows chart selected_cities cols_per_row (seq 0 rows).

Definition is_nil {A : Type} (l : list A) : bool :=
  match l with
  | [] => true
  | _ => false
  end.

(** Lines 133-232: the view, for the table in the session and for what the
    user has selected in the two selectors. *)
Definition city_comparison (df : option DataFrame)
  (selected_cities selected_metrics : list string) : Result (list Widget) :=
  let top :=
    [Title "City Comparison";
     Markdown
       "Select up to 4 cities and up to 6 metrics to compare side by side."]
  in
  let no_data :=
    Warning
      "No data loaded. Ensure Final.Project.Data.xlsx is in the app folder."
  in
  match df with
  | None => Ok (top ++ [no_data])
  | Some d =>
      if empty d then Ok (top ++ [no_data])
      else
        let metrics := get_metric_columns df in
        all <-! of_outcome (cities_all d) ;;
        if is_nil metrics || is_nil all then
          Ok (top ++ [Warning "No cities or metric columns in the data."])
        else
          let selectors :=
            [Multiselect "Select cities (max 4)" all [] 4;
             Multiselect "Select metrics (max 6)" metrics
               (firstn (Nat.min 6 (List.length metrics)) metrics) 6]
          in
          if is_nil selected_cities || is_nil selected_metrics then
            Ok (top ++ selectors ++
                [Info
                   "Select at least one city and one metric to see charts."])
          else
            let m2c := metric_to_color selected_metrics in
            charts <-! chart_grid (make_bar_chart d selected_metrics m2c)
                         selected_cities ;;
            Ok (top ++ selectors ++ charts)
  end.

(** The figures a page shows, in order. *)
Definition figures (ws : list Widget) : list Figure :=
  flat_map (fun wd => match wd with PlotlyChart _ f => [f] | _ => [] end) ws.

(** What one call of [chart] adds to the page: its figure when it returns
    one. *)
Definition drawn (chart : string -> Outcome (option Figure)) (city : string)
  : list Figure :=
  match chart city with
  | Return (Some f) => [f]
  | _ => []
  end.

Definition is_columns (wd : Widget) : bool :=
  match wd with
  | Columns _ => true
  | _ => false
  end.

(** A chart placed in one of the [cols] columns of its block. *)
Definition chart_in (cols : nat) (wd : Widget) : Prop :=
  match wd with
  | PlotlyChart c _ => c < cols
  | _ => False
  end.

(** A widget of a grid of width [cols]: a block of [cols] columns, or a
    chart in one of them. *)
Definition in_grid (cols : nat) (wd : Widget) : Prop :=
  match wd with
  | Columns n => n = cols
  | PlotlyChart c _ => c < cols
  | _ => False
  end.

(** A second sample: seven metric names, one more than the palette. *)
Definition seven_metrics : list string :=
  ["m0"; "m1"; "m2"; "m3"; "m4"; "m5"; "m6"].

(** The header row of the read a call ends on. *)
Definition chosen_row (w : World) : nat :=
  if first_is_placeholder (parse w 2) then 3 else 2.

(** ** More sample workbooks *)

Module MoreSamples.

(** Two header labels that differ in whitespace only. *)
Definition padded_twin : World :=
  mkWorld true (fun h =>
    match h with
    | 2 => inr (mkParsed ["City"; " City "] [[Text "Austin"; Text "TX"]])
    | _ => inl CorruptFile
    end).

(** A sheet from which no column is parsed. *)
Definition no_columns : World :=
  mkWorld true (fun _ => inr (mkParsed [] [])).

(** A sheet whose third row holds clean labels and whose rows all have a
    key. *)
Definition austin_boise : World :=
  mkWorld true (fun h =>
    match h with
    | 2 => inr (mkParsed ["City"; "Score"; "Rank"]
                  [[Text "Austin"; Num 7; Num 1];
                   [Text "Boise"; Num 9; Num 3]])
    | _ => inl CorruptFile
    end).

(** A session that already holds a table. *)
Definition stale_page : Page :=
  mkPage [("compare_cities", None);
          ("df", Some (mkDataFrame ["Old"] [(0, [Text "x"])]))]
    ["Loaded: **1** cities"] [IsFile; ReadExcel 2].

(** The table [Samples.duplicates] loads to. *)
Definition reno_austin : DataFrame :=
  mkDataFrame ["City"; "Score"]
    [(0, [Text "Reno"; Num 1]);
     (1, [Text "Austin"; Num 2]);
     (2, [Text "Austin"; Num 3])].

End MoreSamples.

(** ** Proof steps *)

(** Case analysis on every outcome a goal matches on. *)
Ltac split_outcomes :=
  repeat match goal with
    | |- context [match ?x with Raise _ => _ | Return _ => _ end] =>
        destruct x
    end.

(** * Properties *)

(** ** Strings *)

Section Strip.

Import PyStr.

Lemma lstrip_first (s : string) : not_space (first_char (lstrip s)) = true.
Proof.
  induction s as [|c s IH]; simpl; [reflexivity|].
  destruct (isspace c) eqn:E; [exact IH|].
  simpl. now rewrite E.
Qed.

Lemma rstrip_last (s : string) : not_space (last_char (rstrip s)) = true.
Proof.
  induction s as [|c s IH]; simpl; [reflexivity|].
  destruct (rstrip s) as [|d t] eqn:E.
  - destruct (isspace c) eqn:Ec; simpl; [reflexivity|now rewrite Ec].
  - exact IH.
Qed.

Lemma rstrip_first (s : string) :
  not_space (first_char s) = true ->
  not_space (first_char (rstrip s)) = true.
Proof.
  destruct s as [|c s]; simpl; [reflexivity|].
  intros H. destruct (rstrip s); [|exact H].
  destruct (isspace c) eqn:E; [discriminate|].
  simpl. now rewrite E.
Qed.

Lemma strip_trimmed (s : string) : trimmed (strip s) = true.
Proof.
  unfold trimmed, strip. apply andb_true_intro. split.
  - apply rstrip_first, lstrip_first.
  - apply rstrip_last.
Qed.

Lemma lstrip_id (s : string) :
  not_space (first_char s) = true -> lstrip s = s.
Proof.
  destruct s as [|c s]; simpl; [reflexivity|].
  intros H. now destruct (isspace c).
Qed.

Lemma rstrip_id (s : string) :
  not_space (last_char s) = true -> rstrip s = s.
Proof.
  induction s as [|c s IH]; [reflexivity|].
  intros H. cbn [rstrip].
  destruct s as [|d t].
  - simpl in *. now destruct (isspace c).
  - rewrite IH; [reflexivity|exact H].
Qed.

Lemma strip_id (s : string) : trimmed s = true -> strip s = s.
Proof.
  unfold trimmed, strip. intros H.
  apply andb_prop in H. destruct H as [Hf Hl].
  rewrite lstrip_id by exact Hf. now apply rstrip_id.
Qed.

Lemma lstrip_split (s : string) :
  exists pre, all_space pre = true /\ s = (pre ++ lstrip s)%string.
Proof.
  induction s as [|c s [pre [Hp Hs]]].
  - exists EmptyString. now split.
  - simpl. destruct (isspace c) eqn:E.
    + exists (String c pre). simpl. rewrite E, Hp. split; [reflexivity|].
      now rewrite <- Hs.
    + exists EmptyString. now split.
Qed.

Lemma rstrip_split (s : string) :
  exists post, all_space post = true /\ s = (rstrip s ++ post)%string.
Proof.
  induction s as [|c s [post [Hp Hs]]].
  - exists EmptyString. now split.
  - cbn [rstrip]. destruct (rstrip s) as [|d t] eqn:E.
    + destruct (isspace c) eqn:Ec.
      * exists (String c post). simpl in *. rewrite Ec, Hp.
        split; [reflexivity|]. now rewrite <- Hs.
      * exists post. split; [exact Hp|]. simpl in *. now rewrite <- Hs.
    + exists post. split; [exact Hp|]. simpl in *. now rewrite <- Hs.
Qed.

Lemma strip_split (s : string) :
  exists pre post,
    all_space pre = true /\ all_space post = true
    /\ s = (pre ++ strip s ++ post)%string.
Proof.
  destruct (lstrip_split s) as [pre [Hpre Hs]].
  destruct (rstrip_split (lstrip s)) as [post [Hpost Hl]].
  exists pre, post. repeat split; try assumption.
  unfold strip. now rewrite <- Hl.
Qed.

Lemma lstrip_empty (s : string) :
  lstrip s = EmptyString <-> all_space s = true.
Proof.
  induction s as [|c s IH]; simpl; [now split|].
  destruct (isspace c); simpl; [exact IH|].
  split; discriminate.
Qed.

Lemma rstrip_empty (s : string) :
  rstrip s = EmptyString <-> all_space s = true.
Proof.
  induction s as [|c s IH]; simpl; [now split|].
  destruct (rstrip s) as [|d t].
  - destruct (isspace c); simpl.
    + split; intros _; [now apply IH|reflexivity].
    + split; discriminate.
  - split; [discriminate|]. intros H. apply andb_prop in H.
    destruct H as [_ H]. apply IH in H. discriminate.
Qed.

(** Stripping leaves nothing exactly when the text is all whitespace. *)
Lemma strip_empty (s : string) : strip s = EmptyString <-> all_space s = true.
Proof.
  unfold strip. rewrite rstrip_empty. split.
  - intros H. apply lstrip_empty.
    pose proof (lstrip_first s) as F.
    destruct (lstrip s) as [|c t]; [reflexivity|].
    simpl in *. destruct (isspace c); discriminate.
  - intros H. apply lstrip_empty in H. now rewrite H.
Qed.

Lemma strip_keeps_nonspace (c : ascii) (s : string) :
  isspace c = false -> strip (String c s) <> EmptyString.
Proof.
  intros H E. apply strip_empty in E. simpl in E. now rewrite H in E.
Qed.

End Strip.

(** ** Blank keys *)

Section BlankKeys.

(** A text key is blank exactly when it is all whitespace. *)
Lemma blank_key_text (s : string) :
  blank_key (Text s) = PyStr.all_space s.
Proof.
  unfold blank_key. simpl.
  destruct (PyStr.all_space s) eqn:E.
  - apply strip_empty in E. now rewrite E.
  - apply String.eqb_neq. intros H. apply strip_empty in H. congruence.
Qed.

Lemma uint_text_first (d : Decimal.uint) :
  exists c t, NilZero.string_of_uint d = String c t
              /\ PyStr.isspace c = false.
Proof.
  destruct d; simpl; eexists; eexists; split; reflexivity.
Qed.

(** The text of a number starts with a digit or a sign. *)
Lemma num_text_first (z : Z) :
  exists c t, to_str (Num z) = String c t /\ PyStr.isspace c = false.
Proof.
  simpl. destruct (Z.to_int z) as [d|d]; simpl.
  - apply uint_text_first.
  - eexists; eexists; split; reflexivity.
Qed.

(** A numeric key is never blank. *)
Lemma blank_key_num (z : Z) : blank_key (Num z) = false.
Proof.
  unfold blank_key. cbn [isna orb].
  destruct (num_text_first z) as (c & t & -> & Hc).
  apply String.eqb_neq. now apply strip_keeps_nonspace.
Qed.

End BlankKeys.

(** ** The pandas calls *)

Section Pandas.

Lemma positions_from_absent (p : nat) (cols : list string) (k : string) :
  existsb (String.eqb k) cols = false -> pd.positions_from p cols k = [].
Proof.
  revert p. induction cols as [|c cols IH]; intros p H; [reflexivity|].
  simpl in *. apply orb_false_elim in H. destruct H as [Hc Hr].
  rewrite String.eqb_sym, Hc. now apply IH.
Qed.

Lemma positions_from_present (p : nat) (cols : list string) (k : string) :
  existsb (String.eqb k) cols = true ->
  exists q qs, pd.positions_from p cols k = q :: qs.
Proof.
  revert p. induction cols as [|c cols IH]; intros p H; [discriminate|].
  simpl in *. rewrite (String.eqb_sym c k).
  destruct (String.eqb k c); [now eexists; eexists|].
  now apply IH.
Qed.

Lemma select_rows_map (b : Row -> bool) (rs : list Row) :
  pd.select_rows rs (map (fun r => (row_label r, b r)) rs) = filter b rs.
Proof.
  induction rs as [|r rs IH]; [reflexivity|].
  simpl. rewrite IH. reflexivity.
Qed.

Lemma filter_filter {A : Type} (f g : A -> bool) (l : list A) :
  filter g (filter f l) = filter (fun x => f x && g x) l.
Proof.
  induction l as [|x l IH]; [reflexivity|].
  simpl. destruct (f x); simpl; [destruct (g x)|]; now rewrite IH.
Qed.

Lemma filter_combine (f : list Cell -> bool) (ls : list nat)
  (vals : list (list Cell)) :
  List.length vals <= List.length ls ->
  map row_cells (filter (fun r => f (row_cells r)) (combine ls vals))
  = filter f vals.
Proof.
  revert ls. induction vals as [|v vals IH]; intros ls H.
  - now destruct ls.
  - destruct ls as [|n ls]; simpl in *; [lia|].
    unfold row_cells at 1. simpl.
    destruct (f v); simpl; rewrite IH by lia; reflexivity.
Qed.

Lemma range_index_cells (vals : list (list Cell)) :
  map row_cells (pd.range_index vals) = vals.
Proof.
  unfold pd.range_index.
  assert (G : forall n, map row_cells (combine (seq n (List.length vals)) vals)
                        = vals).
  { induction vals as [|v vals IH]; intros n; [reflexivity|].
    simpl. now rewrite IH. }
  apply G.
Qed.

Lemma range_index_labels (vals : list (list Cell)) :
  map row_label (pd.range_index vals) = seq 0 (List.length vals).
Proof.
  unfold pd.range_index.
  assert (G : forall n, map row_label (combine (seq n (List.length vals)) vals)
                        = seq n (List.length vals)).
  { induction vals as [|v vals IH]; intros n; [reflexivity|].
    simpl. now rewrite IH. }
  apply G.
Qed.

Lemma range_index_length (vals : list (list Cell)) :
  List.length (pd.range_index vals) = List.length vals.
Proof.
  rewrite <- (length_map row_cells). now rewrite range_index_cells.
Qed.

(** Lines 38-43 on the frame a read returned. *)
Lemma normalize_steps (p : Parsed) :
  (let df0 := mkDataFrame (header p) (pd.range_index (body p)) in
   let df := pd.set_columns df0 (pd.index_str_strip (columns df0)) in
   city_col <~ pd.index_getitem (columns df) 0 ;;
   df <~ pd.dropna df city_col ;;
   keys <~ (sel <~ pd.getitem df city_col ;;
            pd.str_strip (pd.astype_str sel)) ;;
   Return (Some (pd.reset_index
                   (pd.getitem_mask df (pd.series_ne keys EmptyString)))))
  = normalized p.
Proof.
  unfold normalized, pd.set_columns, pd.index_str_strip. simpl.
  destruct (map PyStr.strip (header p)) as [|k others]; [reflexivity|].
  simpl. unfold pd.dropna, pd.getitem, pd.get_indexer_for. simpl.
  rewrite String.eqb_refl.
  destruct (existsb (String.eqb k) others) eqn:E.
  - destruct (positions_from_present 1 others k E) as [q [qs Hq]].
    rewrite Hq. simpl. rewrite String.eqb_refl, Hq. reflexivity.
  - rewrite (positions_from_absent 1 others k E). simpl.
    rewrite String.eqb_refl, (positions_from_absent 1 others k E). simpl.
    unfold pd.series_ne, pd.getitem_mask, pd.reset_index. simpl.
    rewrite !map_map. simpl.
    rewrite (select_rows_map
               (fun r => negb (String.eqb
                                 (PyStr.strip (to_str (cell_at 0 r)))
                                 EmptyString))).
    rewrite filter_filter.
    assert (H : map row_cells
                  (filter (fun x : Row =>
                             notna (cell_at 0 x) && true
                             && negb (String.eqb
                                        (PyStr.strip (to_str (cell_at 0 x)))
                                        EmptyString))
                     (pd.range_index (body p)))
                = filter keeps (body p)).
    { rewrite (filter_ext _ (fun r => keeps (row_cells r))).
      - apply filter_combine. rewrite length_seq. lia.
      - intros [n cells].
        unfold keeps, blank_key, key, cell_at, notna, row_cells. simpl.
        rewrite andb_true_r. now rewrite negb_orb. }
    rewrite H. reflexivity.
Qed.

End Pandas.

(** ** The loader, case by case *)

Section Loader.

(** One call appends its events to the log and is otherwise blind to it;
    what it returns and what it logs is [load_excel_cases]. *)
Lemma load_excel_closed (w : World) (l : Log) :
  load_excel w l
  = (fst (load_excel_cases w), l ++ snd (load_excel_cases w)).
Proof.
  pose proof normalize_steps as N.
  unfold load_excel, load_excel_cases, os_path_isfile, _read,
    pd.read_excel, is_placeholder, bind, emit, ret, lift.
  destruct (isfile w); simpl; [|reflexivity].
  destruct (parse w 2) as [why|p2]; simpl;
    [now rewrite <- app_assoc|].
  destruct (header p2) as [|c cs] eqn:Eh; simpl;
    [now rewrite <- app_assoc|].
  destruct (PyStr.startswith c "Unnamed"); simpl.
  - destruct (parse w 3) as [why|p3]; simpl;
      [now rewrite <- !app_assoc|].
    rewrite <- (N p3). simpl. unfold obind.
    rewrite <- !app_assoc. simpl.
    split_outcomes; reflexivity.
  - rewrite <- (N p2). simpl. unfold obind.
    rewrite Eh. simpl.
    rewrite <- !app_assoc. simpl.
    split_outcomes; reflexivity.
Qed.

Lemma run_load_cases (w : World) : run_load w = load_excel_cases w.
Proof.
  unfold run_load. rewrite load_excel_closed. simpl.
  now destruct (load_excel_cases w).
Qed.

Lemma normalized_table (p : Parsed) (T : DataFrame) :
  normalized p = Return (Some T) ->
  columns T = map PyStr.strip (header p)
  /\ rows T = pd.range_index (filter keeps (body p)).
Proof.
  unfold normalized.
  destruct (map PyStr.strip (header p)) as [|k others]; [discriminate|].
  destruct (existsb (String.eqb k) others); [discriminate|].
  intros H. injection H as <-. now split.
Qed.

Lemma normalized_unique_key (p : Parsed) (T : DataFrame) :
  normalized p = Return (Some T) ->
  exists k others,
    columns T = k :: others /\ existsb (String.eqb k) others = false.
Proof.
  unfold normalized.
  destruct (map PyStr.strip (header p)) as [|k others]; [discriminate|].
  destruct (existsb (String.eqb k) others) eqn:E; [discriminate|].
  intros H. injection H as <-. now exists k, others.
Qed.

Lemma normalized_not_absent (p : Parsed) : normalized p <> Return None.
Proof.
  unfold normalized.
  destruct (map PyStr.strip (header p)) as [|k others]; [discriminate|].
  destruct (existsb (String.eqb k) others); discriminate.
Qed.

(** A rectangular parse gives a rectangular table, so no key of it is the
    default of [cell_at]. *)
Lemma normalized_rectangular (p : Parsed) (T : DataFrame) :
  rectangular_cells (List.length (header p)) (body p) = true ->
  normalized p = Return (Some T) ->
  rectangular T = true
  /\ forall r, In r (rows T) -> exists v vs, row_cells r = v :: vs.
Proof.
  intros Hrect Hn.
  destruct (normalized_table p T Hn) as [Hc Hr].
  assert (Hall : forall r, In r (rows T) ->
            List.length (row_cells r) = List.length (columns T)).
  { intros r Hin. apply (in_map row_cells) in Hin.
    rewrite Hr, range_index_cells in Hin. apply filter_In in Hin.
    destruct Hin as [Hin _].
    unfold rectangular_cells in Hrect. rewrite forallb_forall in Hrect.
    specialize (Hrect _ Hin). apply Nat.eqb_eq in Hrect.
    now rewrite Hc, length_map. }
  split.
  - unfold rectangular. apply forallb_forall. intros r Hin.
    apply Nat.eqb_eq. now apply Hall.
  - intros r Hin. specialize (Hall r Hin).
    destruct (normalized_unique_key p T Hn) as (k & others & Hk & _).
    rewrite Hk in Hall. destruct (row_cells r) as [|v vs]; [discriminate|].
    now exists v, vs.
Qed.

(** A returned table comes from a file that exists and from the last read
    of the call: the read at row 2, or at row 3 after a placeholder. *)
Lemma run_load_table (w : World) (T : DataFrame) :
  fst (run_load w) = Return (Some T) ->
  isfile w = true
  /\ exists h p,
      parse w h = inr p
      /\ normalized p = Return (Some T)
      /\ reads (snd (run_load w)) = (if first_is_placeholder (parse w 2)
                                     then [2; 3] else [2])
      /\ h = (if first_is_placeholder (parse w 2) then 3 else 2).
Proof.
  rewrite run_load_cases. unfold load_excel_cases, first_is_placeholder.
  destruct (isfile w); [|discriminate].
  destruct (parse w 2) as [why|p2] eqn:E2; [discriminate|].
  destruct (header p2) as [|c cs]; [discriminate|].
  destruct (is_placeholder c).
  - destruct (parse w 3) as [why|p3] eqn:E3; [discriminate|].
    simpl. intros H. split; [reflexivity|]. now exists 3, p3.
  - simpl. intros H. split; [reflexivity|]. now exists 2, p2.
Qed.

End Loader.

(** ** The header-row fallback *)

(** C1.  When the file exists, the first read of a call uses header row 2;
    the call reads a second time, with header row 3, if and only if the
    first read parsed and the name of its first column starts with
    "Unnamed"; it never reads more than twice.  When the row-2 read yields
    a placeholder first column and the row-3 read yields the label [label]
    first, a returned table is built from the row-3 read alone: its first
    column name is [label] stripped, hence [label] itself when [label] has
    no surrounding whitespace (and then no placeholder unless [label] is
    one), and a table is returned whenever the stripped label is not the
    stripped name of another column. *)
Theorem load_excel_header_fallback (w : World) (Hfile : isfile w = true) :
  let out := fst (run_load w) in
  let rs := reads (snd (run_load w)) in
  (exists more, rs = 2 :: more)
  /\ (rs = [2; 3] <-> first_is_placeholder (parse w 2) = true)
  /\ (rs = [2] <-> first_is_placeholder (parse w 2) = false)
  /\ List.length rs <= 2
  /\ (forall (p2 p3 : Parsed) (label : string) (others : list string),
        parse w 2 = inr p2 ->
        first_is_placeholder (parse w 2) = true ->
        parse w 3 = inr p3 ->
        header p3 = label :: others ->
        (forall T, out = Return (Some T) ->
           columns T = map PyStr.strip (header p3)
           /\ hd_error (columns T) = Some (PyStr.strip label)
           /\ (PyStr.trimmed label = true ->
               hd_error (columns T) = Some label)
           /\ (PyStr.trimmed label = true -> is_placeholder label = false ->
               forall c, hd_error (columns T) = Some c ->
                         is_placeholder c = false)
           /\ map row_cells (rows T) = filter keeps (body p3))
        /\ (existsb (String.eqb (PyStr.strip label))
              (map PyStr.strip others) = false ->
            exists T, out = Return (Some T))).
Proof.
  cbv zeta. rewrite run_load_cases.
  unfold load_excel_cases, first_is_placeholder. rewrite Hfile.
  destruct (parse w 2) as [why|q2] eqn:E2.
  { simpl. repeat split; try discriminate; eauto; intros; discriminate. }
  destruct (header q2) as [|c cs] eqn:Eh.
  { simpl. repeat split; try discriminate; eauto; intros; discriminate. }
  destruct (is_placeholder c) eqn:Ec.
  - assert (R : forall o : Outcome (option DataFrame),
               reads (snd (o, [IsFile; ReadExcel 2; ReadExcel 3])) = [2; 3])
      by reflexivity.
    split; [destruct (parse w 3); eexists; apply R|].
    split; [split; [reflexivity|destruct (parse w 3); intros _; apply R]|].
    split; [split; [destruct (parse w 3); discriminate|discriminate]|].
    split; [destruct (parse w 3); simpl; lia|].
    intros p2 p3 label others _ _ E3 Hh. rewrite E3. simpl.
    split.
    + intros T HT. destruct (normalized_table p3 T HT) as [Hc Hr].
      rewrite Hc, Hr, Hh. simpl.
      split; [reflexivity|]. split; [reflexivity|].
      split; [intros Ht; now rewrite (strip_id label Ht)|].
      split; [|apply range_index_cells].
      intros Ht Hl name Hn. rewrite (strip_id label Ht) in Hn.
      now injection Hn as <-.
    + intros Hu. unfold normalized. rewrite Hh. simpl. rewrite Hu.
      eexists. reflexivity.
  - simpl. split; [eexists; reflexivity|].
    split; [split; discriminate|].
    split; [split; reflexivity|].
    split; [lia|].
    intros p2 p3 label others _ H. discriminate.
Qed.

Lemma load_excel_header_fallback_witness :
  isfile Samples.header_in_row4 = true
  /\ reads (snd (run_load Samples.header_in_row4)) = [2; 3]
  /\ exists T,
      fst (run_load Samples.header_in_row4) = Return (Some T)
      /\ hd_error (columns T) = Some "City".
Proof.
  destruct (load_excel_header_fallback Samples.header_in_row4 eq_refl)
    as (_ & Hiff & _ & _ & Hscen).
  split; [reflexivity|].
  split; [apply Hiff; reflexivity|].
  destruct (Hscen (mkParsed ["Unnamed: 5"; "Unnamed: 6"]
                     [[Text "City"; Text "  Water Stress  "];
                      [Text "Austin"; Num 3]; [Text "Reno"; Num 4]])
              (mkParsed ["City"; "  Water Stress  "]
                     [[Text "Austin"; Num 3]; [Text "Reno"; Num 4]])
              "City" ["  Water Stress  "]
              eq_refl eq_refl eq_refl eq_refl) as [Hall Hex].
  destruct (Hex eq_refl) as [T HT].
  exists T. split; [exact HT|].
  destruct (Hall T HT) as (_ & _ & Htrim & _).
  exact (Htrim eq_refl).
Defined.

(** ** Absence and read failures *)

(** C3.  When the path is not a file, a call returns [None] after the
    existence check alone: it raises nothing, builds no table and reads
    nothing, whatever the log held before. *)
Theorem load_excel_absent (parse : nat -> ReadFailure + Parsed) (l : Log) :
  let w := mkWorld false parse in
  load_excel w l = (Return None, l ++ [IsFile])
  /\ reads (snd (run_load w)) = []
  /\ existsb is_read (snd (run_load w)) = false.
Proof.
  cbv zeta. rewrite load_excel_closed, run_load_cases.
  unfold load_excel_cases. simpl. now repeat split.
Qed.

(** C6.  When the file exists and a read the call makes fails to parse,
    the call raises that read error: the row-2 read, or the row-3 read
    after a placeholder.  It then returns nothing, and in particular not
    the [None] that a missing file gives. *)
Theorem load_excel_read_error (w : World) (why : ReadFailure)
  (Hfile : isfile w = true)
  (Hfail : parse w 2 = inl why
           \/ (first_is_placeholder (parse w 2) = true
               /\ parse w 3 = inl why)) :
  fst (run_load w) = Raise (ExcelReadError why)
  /\ (forall r, fst (run_load w) <> Return r)
  /\ (forall w', isfile w' = false ->
        fst (run_load w') = Return None
        /\ fst (run_load w') <> fst (run_load w)).
Proof.
  assert (E : fst (run_load w) = Raise (ExcelReadError why)).
  { rewrite run_load_cases. unfold load_excel_cases. rewrite Hfile.
    destruct Hfail as [H2|[Hp H3]].
    - now rewrite H2.
    - unfold first_is_placeholder in Hp.
      destruct (parse w 2) as [?|p2]; [discriminate|].
      destruct (header p2) as [|c cs]; [discriminate|].
      now rewrite Hp, H3. }
  split; [exact E|]. split.
  - intros r. rewrite E. discriminate.
  - intros w' Hw'. rewrite E, run_load_cases. unfold load_excel_cases.
    rewrite Hw'. simpl. split; [reflexivity|discriminate].
Qed.

Lemma load_excel_read_error_witness :
  fst (run_load Samples.no_sheet) = Raise (ExcelReadError MissingSheet)
  /\ fst (run_load Samples.broken_row4) = Raise (ExcelReadError CorruptFile).
Proof.
  split.
  - exact (proj1 (load_excel_read_error Samples.no_sheet MissingSheet
                    eq_refl (or_introl eq_refl))).
  - exact (proj1 (load_excel_read_error Samples.broken_row4 CorruptFile
                    eq_refl (or_intror (conj eq_refl eq_refl)))).
Defined.

(** ** Metric columns *)

(** C5.  [get_metric_columns] returns the empty list for an absent table,
    for an empty one and for one with fewer than two columns; for any other
    table it returns the column names after the first, in order.  It is a
    function of the table alone. *)
Theorem get_metric_columns_contract :
  get_metric_columns None = []
  /\ (forall d, empty d = true -> get_metric_columns (Some d) = [])
  /\ (forall d, List.length (columns d) < 2 ->
        get_metric_columns (Some d) = [])
  /\ (forall d, empty d = false -> 2 <= List.length (columns d) ->
        get_metric_columns (Some d) = pd.index_from1 (columns d)
        /\ exists k, columns d = k :: get_metric_columns (Some d))
  /\ get_metric_columns (Some Samples.city_score_rank) = ["Score"; "Rank"]
  /\ get_metric_columns (Some Samples.city_only) = [].
Proof.
  split; [reflexivity|]. split.
  { intros d H. simpl. now rewrite H. }
  split.
  { intros d H. simpl. apply Nat.ltb_lt in H. rewrite H.
    now rewrite orb_true_r. }
  split; [|split; reflexivity].
  intros d He Hl. simpl. rewrite He. simpl.
  destruct (Nat.ltb_spec (List.length (columns d)) 2) as [H|H]; [lia|].
  split; [reflexivity|].
  destruct (columns d) as [|k ks]; simpl in *; [lia|]. now exists k.
Qed.

Lemma get_metric_columns_contract_witness :
  get_metric_columns (Some Samples.city_score_rank)
  = pd.index_from1 (columns Samples.city_score_rank)
  /\ get_metric_columns (Some Samples.city_only) = [].
Proof.
  destruct get_metric_columns_contract as (_ & _ & Hfew & Hmany & _).
  split.
  - apply (Hmany Samples.city_score_rank); [reflexivity|simpl; lia].
  - apply (Hfew Samples.city_only). simpl. lia.
Defined.

(** ** Lists *)

Section Lists.

Context {A : Type}.

Lemma filter_subsequence (f : A -> bool) (l : list A) :
  subsequence (filter f l) l.
Proof.
  induction l as [|x l IH]; simpl; [constructor|].
  destruct (f x); now constructor.
Qed.

Lemma hd_filter_find (f : A -> bool) (l : list A) :
  hd_error (filter f l) = find f l.
Proof.
  induction l as [|x l IH]; simpl; [reflexivity|].
  now destruct (f x).
Qed.

(** [find] returns the first element that passes the test. *)
Lemma find_first (f : A -> bool) (l : list A) (x : A) :
  find f l = Some x <->
  exists pre post,
    l = pre ++ x :: post /\ f x = true
    /\ Forall (fun y => f y = false) pre.
Proof.
  split.
  - induction l as [|y l IH]; simpl; [discriminate|].
    destruct (f y) eqn:E.
    + intros H. injection H as <-. exists [], l. now repeat split.
    + intros H. destruct (IH H) as (pre & post & -> & Hx & Hpre).
      exists (y :: pre), post. repeat split; auto.
  - intros (pre & post & -> & Hx & Hpre).
    induction Hpre as [|y pre Hy _ IH]; simpl.
    + now rewrite Hx.
    + now rewrite Hy.
Qed.

Lemma find_none (f : A -> bool) (l : list A) :
  find f l = None <-> Forall (fun y => f y = false) l.
Proof.
  induction l as [|y l IH]; simpl.
  - split; [constructor|reflexivity].
  - destruct (f y) eqn:E.
    + split; [discriminate|]. intros H. inversion H. congruence.
    + rewrite IH. split; [now constructor|]. intros H. now inversion H.
Qed.

Lemma filter_narrow (f g : A -> bool) (l : list A) :
  (forall x, g x = true -> f x = true) ->
  filter g (filter f l) = filter g l.
Proof.
  intros H. induction l as [|x l IH]; simpl; [reflexivity|].
  destruct (f x) eqn:Ef; simpl.
  - now rewrite IH.
  - destruct (g x) eqn:Eg; [|exact IH].
    apply H in Eg. congruence.
Qed.

End Lists.

Lemma cell_eqb_eq (a b : Cell) : cell_eqb a b = true -> a = b.
Proof.
  destruct a, b; simpl; try discriminate; intros H.
  - reflexivity.
  - apply String.eqb_eq in H. now subst.
  - apply Z.eqb_eq in H. now subst.
Qed.

(** On a frame whose first label labels no other column, the comparison
    view finds the first row whose stripped key text is the city. *)
Lemma make_bar_chart_row_find (df : DataFrame) (k : string)
  (others : list string) (city : string) :
  columns df = k :: others ->
  existsb (String.eqb k) others = false ->
  make_bar_chart_row df city
  = Return (find (fun r => String.eqb (key_text r) city) (rows df)).
Proof.
  intros Hc Hu. unfold make_bar_chart_row, pd.getitem, pd.get_indexer_for.
  rewrite Hc. simpl. rewrite String.eqb_refl.
  rewrite (positions_from_absent 1 others k Hu). simpl.
  unfold pd.series_eq, pd.getitem_mask. rewrite !map_map. simpl.
  rewrite (select_rows_map
             (fun r => String.eqb (PyStr.strip (to_str (cell_at 0 r))) city)).
  rewrite <- hd_filter_find.
  unfold empty, pd.iloc0. simpl. rewrite Hc.
  unfold key_text, key, cell_at.
  now destruct (filter _ (rows df)).
Qed.

(** ** Tables the loader returns *)

Section Loaded.

Variables (w : World) (T : DataFrame).
Hypothesis Hret : fst (run_load w) = Return (Some T).

(** The read the table comes from: the last one of the call. *)
Lemma loaded_source :
  exists h p,
    parse w h = inr p
    /\ last (reads (snd (run_load w))) 0 = h
    /\ columns T = map PyStr.strip (header p)
    /\ rows T = pd.range_index (filter keeps (body p))
    /\ map row_cells (rows T) = filter keeps (body p).
Proof.
  destruct (run_load_table w T Hret) as (_ & h & p & Hp & Hn & Hr & Hh).
  destruct (normalized_table p T Hn) as [Hcols Hrows].
  exists h, p. split; [exact Hp|].
  split; [rewrite Hr, Hh; now destruct (first_is_placeholder _)|].
  split; [exact Hcols|]. split; [exact Hrows|].
  rewrite Hrows. apply range_index_cells.
Qed.

(** The key label of the table labels no other column. *)
Lemma loaded_unique_key :
  exists k others,
    columns T = k :: others /\ existsb (String.eqb k) others = false.
Proof.
  destruct (run_load_table w T Hret) as (_ & h & p & _ & Hn & _).
  exact (normalized_unique_key p T Hn).
Qed.

(** C10.  Loading changes no cell: every row of a returned table is, cell
    for cell, a body row of the read it comes from, and every body row with
    a non-blank key is there; only the column names are stripped.  The row
    keyed "  Austin  " is kept with its padding, and the comparison view,
    which strips the key text itself, finds it under "Austin". *)
Theorem load_excel_leaves_cells_untouched :
  (exists h p,
      parse w h = inr p
      /\ last (reads (snd (run_load w))) 0 = h
      /\ columns T = map PyStr.strip (header p)
      /\ (forall r, In r (rows T) -> In (row_cells r) (body p))
      /\ (forall cells, In cells (body p) -> keeps cells = true ->
            In cells (map row_cells (rows T))))
  /\ (exists T0,
        fst (run_load Samples.mixed_keys) = Return (Some T0)
        /\ hd_error (rows T0) = Some (0, [Text "  Austin  "; Num 1])
        /\ make_bar_chart_row T0 "Austin"
           = Return (Some (0, [Text "  Austin  "; Num 1]))).
Proof.
  split.
  - destruct loaded_source as (h & p & Hp & Hlast & Hcols & _ & Hc).
    exists h, p. split; [exact Hp|]. split; [exact Hlast|].
    split; [exact Hcols|].
    split.
    + intros r Hin. apply (in_map row_cells) in Hin. rewrite Hc in Hin.
      now apply filter_In in Hin.
    + intros cells Hin Hk. rewrite Hc. now apply filter_In.
  - eexists. split; [reflexivity|]. now split.
Qed.

(** C9.  Loading removes no duplicate: for every non-blank key, the rows of
    a returned table with that key are all the body rows with that key, in
    order.  On such a table the comparison view raises nothing and takes,
    for a city, the first row in table order whose stripped key text is the
    city, and none when no row has it. *)
Theorem lookup_takes_first_match :
  (exists h p,
      parse w h = inr p
      /\ last (reads (snd (run_load w))) 0 = h
      /\ forall v, blank_key v = false ->
           filter (fun cells => cell_eqb (key cells) v)
             (map row_cells (rows T))
           = filter (fun cells => cell_eqb (key cells) v) (body p))
  /\ (forall city r,
        make_bar_chart_row T city = Return (Some r)
        <-> exists earlier later,
              rows T = earlier ++ r :: later
              /\ key_text r = city
              /\ Forall (fun r' => key_text r' <> city) earlier)
  /\ (forall city,
        make_bar_chart_row T city = Return None
        <-> Forall (fun r => key_text r <> city) (rows T))
  /\ (exists T2,
        fst (run_load Samples.duplicates) = Return (Some T2)
        /\ rows T2 = [(0, [Text "Reno"; Num 1]);
                      (1, [Text "Austin"; Num 2]);
                      (2, [Text "Austin"; Num 3])]
        /\ make_bar_chart_row T2 "Austin"
           = Return (Some (1, [Text "Austin"; Num 2]))).
Proof.
  destruct loaded_source as (h & p & Hp & Hlast & _ & _ & Hcells).
  destruct loaded_unique_key as (k & others & Hc & Hu).
  assert (Hneq : forall city (rs : list Row),
             Forall (fun y => String.eqb (key_text y) city = false) rs
             <-> Forall (fun r' => key_text r' <> city) rs).
  { intros city rs. rewrite !Forall_forall.
    split; intros H x Hx; apply String.eqb_neq; now apply H. }
  split; [|split; [|split]].
  - exists h, p. split; [exact Hp|]. split; [exact Hlast|].
    intros v Hv. rewrite Hcells.
    apply filter_narrow. intros cells Hk.
    apply cell_eqb_eq in Hk. unfold keeps. now rewrite Hk, Hv.
  - intros city r. rewrite (make_bar_chart_row_find T k others city Hc Hu).
    split.
    + intros H. injection H as H. apply find_first in H.
      destruct H as (pre & post & Hl & Hx & Hpre).
      exists pre, post. split; [exact Hl|].
      split; [now apply String.eqb_eq|now apply Hneq].
    + intros (pre & post & Hl & Hx & Hpre). f_equal.
      apply find_first. exists pre, post. split; [exact Hl|].
      split; [now apply String.eqb_eq|now apply Hneq].
  - intros city. rewrite (make_bar_chart_row_find T k others city Hc Hu).
    rewrite <- Hneq, <- find_none.
    split; [intros H; now injection H|intros H; now rewrite H].
  - eexists. split; [reflexivity|]. now split.
Qed.

End Loaded.

Lemma load_excel_leaves_cells_untouched_witness :
  exists h p,
    parse Samples.mixed_keys h = inr p
    /\ In [Text "  Austin  "; Num 1] (body p).
Proof.
  destruct (load_excel_leaves_cells_untouched Samples.mixed_keys
              (mkDataFrame ["City"; "Score"]
                 [(0, [Text "  Austin  "; Num 1]);
                  (1, [Text "Austin"; Num 5]);
                  (2, [Num 42; Num 6])])
              eq_refl) as [(h & p & Hp & _ & _ & Hin & _) _].
  exists h, p. split; [exact Hp|].
  apply (Hin (0, [Text "  Austin  "; Num 1])). now left.
Defined.

Lemma lookup_takes_first_match_witness :
  make_bar_chart_row
    (mkDataFrame ["City"; "Score"]
       [(0, [Text "Reno"; Num 1]);
        (1, [Text "Austin"; Num 2]);
        (2, [Text "Austin"; Num 3])])
    "Austin"
  = Return (Some (1, [Text "Austin"; Num 2])).
Proof.
  destruct (lookup_takes_first_match Samples.duplicates
              (mkDataFrame ["City"; "Score"]
                 [(0, [Text "Reno"; Num 1]);
                  (1, [Text "Austin"; Num 2]);
                  (2, [Text "Austin"; Num 3])])
              eq_refl) as (_ & Hfirst & _).
  apply Hfirst.
  exists [(0, [Text "Reno"; Num 1])], [(2, [Text "Austin"; Num 3])].
  split; [reflexivity|]. split; [reflexivity|].
  constructor; [discriminate|constructor].
Defined.

(** ** Repeated calls *)

(** C8.  What a call returns or raises does not depend on the calls made
    before it, and each call appends its own events to the log.  So two
    calls in a row on an unchanged file return the same value, equal in
    column names and rows, and the second call repeats every event of the
    first: when the file exists it reads the sheet again, starting at
    header row 2. *)
Theorem load_excel_twice_equal (w : World) (l : Log) :
  (forall l1 l2, fst (load_excel w l1) = fst (load_excel w l2))
  /\ snd (load_excel w l) = l ++ snd (run_load w)
  /\ (forall r, fst (run_load w) = Return r ->
        load_excel_twice w l
        = (Return (r, r), l ++ snd (run_load w) ++ snd (run_load w)))
  /\ (forall a b l', load_excel_twice w l = (Return (a, b), l') ->
        a = b
        /\ reads l'
           = reads l ++ reads (snd (run_load w)) ++ reads (snd (run_load w)))
  /\ (isfile w = true ->
      exists more, reads (snd (run_load w)) = 2 :: more).
Proof.
  assert (Htwice : forall r, fst (run_load w) = Return r ->
            load_excel_twice w l
            = (Return (r, r), l ++ snd (run_load w) ++ snd (run_load w))).
  { intros r Hr. unfold load_excel_twice, bind, ret.
    rewrite (load_excel_closed w l), <- run_load_cases, Hr.
    rewrite (load_excel_closed w (l ++ snd (run_load w))).
    rewrite <- run_load_cases, Hr. now rewrite <- app_assoc. }
  split; [intros l1 l2; now rewrite !load_excel_closed|].
  split; [now rewrite load_excel_closed, run_load_cases|].
  split; [exact Htwice|].
  split.
  - intros a b l' H.
    destruct (fst (run_load w)) as [e|r] eqn:Hr.
    + unfold load_excel_twice, bind in H.
      rewrite (load_excel_closed w l), <- run_load_cases, Hr in H.
      discriminate.
    + rewrite (Htwice r eq_refl) in H. injection H as <- <- <-.
      split; [reflexivity|]. unfold reads. now rewrite !flat_map_app.
  - intros Hfile. rewrite run_load_cases. unfold load_excel_cases.
    rewrite Hfile.
    destruct (parse w 2) as [why|p2]; [now eexists|].
    destruct (header p2) as [|c cs]; [now eexists|].
    destruct (is_placeholder c); [|now eexists].
    destruct (parse w 3); now eexists.
Qed.

Lemma load_excel_twice_equal_witness :
  exists T,
    load_excel_twice Samples.three_rows []
    = (Return (Some T, Some T),
       [IsFile; ReadExcel 2; IsFile; ReadExcel 2]).
Proof.
  destruct (load_excel_twice_equal Samples.three_rows [])
    as (_ & _ & Htwice & _).
  eexists. apply (Htwice (Some _)). reflexivity.
Defined.

(** * Further properties of the loader *)

Section LoaderOutcomes.

Variable w : World.

(** What a call returns or raises, from the read it ends on. *)
Lemma run_load_outcome :
  fst (run_load w)
  = if isfile w then
      match parse w (chosen_row w) with
      | inl why => Raise (ExcelReadError why)
      | inr p => normalized p
      end
    else Return None.
Proof.
  rewrite run_load_cases.
  unfold load_excel_cases, chosen_row, first_is_placeholder.
  destruct (isfile w); [|reflexivity].
  destruct (parse w 2) as [why|p2] eqn:E2; [now rewrite E2|].
  destruct (header p2) as [|c cs] eqn:Eh.
  - rewrite E2. unfold normalized. now rewrite Eh.
  - destruct (is_placeholder c).
    + now destruct (parse w 3).
    + now rewrite E2.
Qed.

Lemma normalized_raises (p : Parsed) (e : Exception) :
  normalized p = Raise e ->
  (e = IndexError /\ header p = [])
  \/ (e = AttributeError
      /\ exists k others,
          map PyStr.strip (header p) = k :: others /\ In k others).
Proof.
  unfold normalized.
  destruct (header p) as [|c cs] eqn:Eh; simpl.
  - intros H. injection H as <-. now left.
  - destruct (existsb _ _) eqn:E; [|discriminate].
    intros H. injection H as <-. right. split; [reflexivity|].
    exists (PyStr.strip c), (map PyStr.strip cs). split; [reflexivity|].
    apply existsb_exists in E. destruct E as (x & Hin & Hx).
    apply String.eqb_eq in Hx. now subst.
Qed.

(** X1.  A call returns [None] exactly when the path is not a file: a file
    that exists never gives the absent result, whatever it holds. *)
Theorem load_excel_none_iff_missing :
  fst (run_load w) = Return None <-> isfile w = false.
Proof.
  rewrite run_load_outcome. destruct (isfile w).
  - split; [|discriminate].
    destruct (parse w (chosen_row w)) as [why|p]; [discriminate|].
    intros H. now apply normalized_not_absent in H.
  - now split.
Qed.

(** X2.  When the file exists, the read a call ends on parses, and the
    stripped label of the first column is also the stripped label of a
    later column, the call raises [AttributeError], whatever the rows
    hold: no table comes back from such a sheet. *)
Theorem load_excel_twin_key_label (p : Parsed) (k : string)
  (others : list string)
  (Hfile : isfile w = true)
  (Hp : parse w (chosen_row w) = inr p)
  (Hk : map PyStr.strip (header p) = k :: others)
  (Hin : In k others) :
  fst (run_load w) = Raise AttributeError
  /\ forall r, fst (run_load w) <> Return r.
Proof.
  assert (E : fst (run_load w) = Raise AttributeError).
  { rewrite run_load_outcome, Hfile, Hp. unfold normalized. rewrite Hk.
    assert (Ex : existsb (String.eqb k) others = true).
    { apply existsb_exists. exists k. split; [exact Hin|].
      apply String.eqb_refl. }
    now rewrite Ex. }
  split; [exact E|]. intros r. rewrite E. discriminate.
Qed.

(** X3.  A call raises [IndexError] exactly when the file exists and the
    read it ends on parses to a frame without columns; and a call never
    raises [KeyError] nor, the file system being as it was at the existence
    check, [FileNotFoundError]. *)
Theorem load_excel_index_error_iff :
  (fst (run_load w) = Raise IndexError
   <-> isfile w = true
       /\ exists p, parse w (chosen_row w) = inr p /\ header p = [])
  /\ fst (run_load w) <> Raise KeyError
  /\ fst (run_load w) <> Raise FileNotFoundError.
Proof.
  rewrite run_load_outcome. split; [split|].
  - destruct (isfile w); [|discriminate].
    destruct (parse w (chosen_row w)) as [why|p]; [discriminate|].
    intros H. split; [reflexivity|]. exists p. split; [reflexivity|].
    destruct (normalized_raises p _ H) as [[_ Hh]|[? _]];
      [exact Hh|discriminate].
  - intros (-> & p & -> & Hh). unfold normalized. now rewrite Hh.
  - destruct (isfile w); [|split; discriminate].
    destruct (parse w (chosen_row w)) as [why|p]; [split; discriminate|].
    split; intros H;
      destruct (normalized_raises p _ H) as [[? _]|[? _]]; discriminate.
Qed.

End LoaderOutcomes.

(** * When a table comes back, and what it holds *)

Section ReturnedTable.

Lemma not_in_existsb (k : string) (others : list string) :
  ~ In k others -> existsb (String.eqb k) others = false.
Proof.
  intros Hn. destruct (existsb (String.eqb k) others) eqn:E; [|reflexivity].
  apply existsb_exists in E. destruct E as (x & Hx & Ex).
  apply String.eqb_eq in Ex. subst x. contradiction.
Qed.

(** A call returns a table as soon as the file exists, the read it ends on
    parses, and the stripped key label labels no other column. *)
Lemma run_load_returns (w : World) (p : Parsed) (k : string)
  (others : list string) :
  isfile w = true ->
  parse w (chosen_row w) = inr p ->
  map PyStr.strip (header p) = k :: others ->
  ~ In k others ->
  fst (run_load w)
  = Return (Some (mkDataFrame (k :: others)
                    (pd.range_index (filter keeps (body p))))).
Proof.
  intros Hf Hp Hk Hn. rewrite run_load_outcome, Hf, Hp.
  unfold normalized. now rewrite Hk, (not_in_existsb k others Hn).
Qed.

(** What it means for the rows of a table to be the kept rows of a body. *)
Lemma kept_rows_facts (kept vals : list (list Cell)) :
  kept = filter keeps vals ->
  kept = filter (fun cells =>
                   negb (isna (key cells)
                         || String.eqb (PyStr.strip (to_str (key cells)))
                              EmptyString))
           vals
  /\ (forall cells, In cells vals ->
        (In cells kept
         <-> ~ (key cells = NaN
                \/ PyStr.strip (to_str (key cells)) = EmptyString)))
  /\ (forall cells, In cells kept -> In cells vals).
Proof.
  intros ->. split; [reflexivity|]. split.
  - intros cells Hin. rewrite filter_In. unfold keeps, blank_key.
    split.
    + intros [_ Hk] [Hnull|Hempty].
      * rewrite Hnull in Hk. discriminate.
      * rewrite Hempty in Hk. simpl in Hk. rewrite orb_true_r in Hk.
        discriminate.
    + intros Hnot. split; [exact Hin|].
      apply negb_true_iff, orb_false_intro.
      * destruct (key cells); try reflexivity. exfalso. now apply Hnot; left.
      * apply String.eqb_neq. intros E. apply Hnot. now right.
  - intros cells Hin. now apply filter_In in Hin.
Qed.

(** What it means for names to be the stripped labels of a header. *)
Lemma stripped_names_facts (raws : list string) :
  Forall2 (fun raw name =>
             PyStr.trimmed name = true
             /\ exists pre post,
                 PyStr.all_space pre = true
                 /\ PyStr.all_space post = true
                 /\ raw = (pre ++ name ++ post)%string)
    raws (map PyStr.strip raws)
  /\ Forall (fun name => PyStr.trimmed name = true) (map PyStr.strip raws).
Proof.
  split.
  - induction raws as [|raw raws IH]; simpl; [constructor|].
    constructor; [|exact IH].
    split; [apply strip_trimmed|].
    destruct (strip_split raw) as (pre & post & H1 & H2 & H3).
    now exists pre, post.
  - apply Forall_map, Forall_forall. intros raw _. apply strip_trimmed.
Qed.

Variable w : World.

(** C2.  Whenever the file exists, the read the call ends on parses and
    the stripped key label labels no other column, the call returns a table
    that holds exactly the body rows of that read whose key (first cell) is
    neither null nor empty once turned to text and stripped: a body row is
    in the table if and only if its key is not blank, and every table row
    is a body row.  The same holds of every table a call returns.  Null is
    a blank key, a text is one exactly when it is all whitespace (so the
    empty text and "   " are), and a number never is; of the six sample
    rows the three with a null, empty or blank key go and the rows of
    "  Austin  ", "Austin" and 42 stay. *)
Theorem load_excel_drops_blank_keys :
  (forall p k others,
      isfile w = true ->
      parse w (chosen_row w) = inr p ->
      map PyStr.strip (header p) = k :: others ->
      ~ In k others ->
      exists T,
        fst (run_load w) = Return (Some T)
        /\ map row_cells (rows T)
           = filter (fun cells =>
                       negb (isna (key cells)
                             || String.eqb
                                  (PyStr.strip (to_str (key cells)))
                                  EmptyString))
               (body p)
        /\ (forall cells, In cells (body p) ->
              (In cells (map row_cells (rows T))
               <-> ~ (key cells = NaN
                      \/ PyStr.strip (to_str (key cells)) = EmptyString)))
        /\ (forall cells, In cells (map row_cells (rows T)) ->
              In cells (body p)))
  /\ (forall T,
        fst (run_load w) = Return (Some T) ->
        exists h p,
          parse w h = inr p
          /\ last (reads (snd (run_load w))) 0 = h
          /\ map row_cells (rows T)
             = filter (fun cells =>
                         negb (isna (key cells)
                               || String.eqb
                                    (PyStr.strip (to_str (key cells)))
                                    EmptyString))
                 (body p)
          /\ (forall cells, In cells (body p) ->
                (In cells (map row_cells (rows T))
                 <-> ~ (key cells = NaN
                        \/ PyStr.strip (to_str (key cells)) = EmptyString)))
          /\ (forall cells, In cells (map row_cells (rows T)) ->
                In cells (body p)))
  /\ blank_key NaN = true
  /\ (forall s, blank_key (Text s) = PyStr.all_space s)
  /\ (forall z, blank_key (Num z) = false)
  /\ blank_key (Text EmptyString) = true
  /\ blank_key (Text "   ") = true
  /\ blank_key (Text "Austin") = false
  /\ fst (run_load Samples.mixed_keys)
     = Return (Some (mkDataFrame ["City"; "Score"]
                       [(0, [Text "  Austin  "; Num 1]);
                        (1, [Text "Austin"; Num 5]);
                        (2, [Num 42; Num 6])])).
Proof.
  split; [|split].
  - intros p k others Hf Hp Hk Hn.
    eexists. split; [apply (run_load_returns w p k others Hf Hp Hk Hn)|].
    cbn [rows]. rewrite range_index_cells.
    now apply kept_rows_facts.
  - intros T HT.
    destruct (loaded_source w T HT) as (h & p & Hp & Hlast & _ & _ & Hcells).
    exists h, p. split; [exact Hp|]. split; [exact Hlast|].
    now apply kept_rows_facts.
  - split; [reflexivity|]. split; [exact blank_key_text|].
    split; [exact blank_key_num|]. now repeat split.
Qed.

(** C4.  Whenever the file exists, the read the call ends on parses and
    the stripped key label labels no other column, the call returns a table
    whose rows are the kept body rows of that read in the order the body
    has them, labelled 0, 1, 2, ... without a gap.  The same holds of every
    table a call returns.  On three body rows of which the middle one has a
    blank key, the call returns the first row then the third, labelled 0
    and 1. *)
Theorem load_excel_keeps_row_order :
  (forall p k others,
      isfile w = true ->
      parse w (chosen_row w) = inr p ->
      map PyStr.strip (header p) = k :: others ->
      ~ In k others ->
      exists T,
        fst (run_load w) = Return (Some T)
        /\ subsequence (map row_cells (rows T)) (body p)
        /\ map row_cells (rows T) = filter keeps (body p)
        /\ map row_label (rows T) = seq 0 (List.length (rows T)))
  /\ (forall T,
        fst (run_load w) = Return (Some T) ->
        (exists h p,
            parse w h = inr p
            /\ last (reads (snd (run_load w))) 0 = h
            /\ subsequence (map row_cells (rows T)) (body p)
            /\ map row_cells (rows T) = filter keeps (body p))
        /\ map row_label (rows T) = seq 0 (List.length (rows T)))
  /\ fst (run_load Samples.three_rows)
     = Return (Some (mkDataFrame ["City"; "Score"; "Rank"]
                       [(0, [Text "Austin"; Num 7; Num 1]);
                        (1, [Text "Boise"; Num 9; Num 3])])).
Proof.
  split; [|split; [|reflexivity]].
  - intros p k others Hf Hp Hk Hn.
    eexists. split; [apply (run_load_returns w p k others Hf Hp Hk Hn)|].
    cbn [rows]. rewrite range_index_cells, range_index_labels,
      range_index_length.
    split; [apply filter_subsequence|]. now split.
  - intros T HT.
    destruct (loaded_source w T HT)
      as (h & p & Hp & Hlast & _ & Hrows & Hcells).
    split.
    + exists h, p. split; [exact Hp|]. split; [exact Hlast|].
      rewrite Hcells. split; [apply filter_subsequence|reflexivity].
    + rewrite Hrows, range_index_labels, range_index_length. reflexivity.
Qed.

(** C7.  Whenever the file exists, the read the call ends on parses and
    the stripped key label labels no other column, the call returns a table
    whose column names are the header labels of that read with the
    whitespace at both ends removed: each label is its name between two
    runs of whitespace, and no name starts or ends with whitespace.  The
    same holds of every table a call returns.  "  Water Stress  " becomes
    "Water Stress", and the sample sheet with that header loads to the
    columns "City" and "Water Stress". *)
Theorem load_excel_strips_column_names :
  (forall p k others,
      isfile w = true ->
      parse w (chosen_row w) = inr p ->
      map PyStr.strip (header p) = k :: others ->
      ~ In k others ->
      exists T,
        fst (run_load w) = Return (Some T)
        /\ columns T = map PyStr.strip (header p)
        /\ Forall2 (fun raw name =>
                      PyStr.trimmed name = true
                      /\ exists pre post,
                          PyStr.all_space pre = true
                          /\ PyStr.all_space post = true
                          /\ raw = (pre ++ name ++ post)%string)
             (header p) (columns T)
        /\ Forall (fun name => PyStr.trimmed name = true) (columns T))
  /\ (forall T,
        fst (run_load w) = Return (Some T) ->
        (exists h p,
            parse w h = inr p
            /\ last (reads (snd (run_load w))) 0 = h
            /\ Forall2 (fun raw name =>
                          PyStr.trimmed name = true
                          /\ exists pre post,
                              PyStr.all_space pre = true
                              /\ PyStr.all_space post = true
                              /\ raw = (pre ++ name ++ post)%string)
                 (header p) (columns T))
        /\ Forall (fun name => PyStr.trimmed name = true) (columns T))
  /\ PyStr.strip "  Water Stress  " = "Water Stress"
  /\ fst (run_load Samples.header_in_row4)
     = Return (Some (mkDataFrame ["City"; "Water Stress"]
                       [(0, [Text "Austin"; Num 3]);
                        (1, [Text "Reno"; Num 4])])).
Proof.
  split; [|split; [|split; reflexivity]].
  - intros p k others Hf Hp Hk Hn.
    eexists. split; [apply (run_load_returns w p k others Hf Hp Hk Hn)|].
    cbn [columns]. rewrite <- Hk. split; [reflexivity|].
    apply stripped_names_facts.
  - intros T HT.
    destruct (loaded_source w T HT) as (h & p & Hp & Hlast & Hcols & _).
    rewrite Hcols. split; [|apply stripped_names_facts].
    exists h, p. split; [exact Hp|]. split; [exact Hlast|].
    apply stripped_names_facts.
Qed.

End ReturnedTable.

Lemma load_excel_drops_blank_keys_witness :
  exists T,
    fst (run_load Samples.mixed_keys) = Return (Some T)
    /\ map row_cells (rows T)
       = [[Text "  Austin  "; Num 1]; [Text "Austin"; Num 5];
          [Num 42; Num 6]].
Proof.
  destruct (proj1 (load_excel_drops_blank_keys Samples.mixed_keys)
              (mkParsed ["City"; "Score"]
                 [[Text "  Austin  "; Num 1];
                  [Text EmptyString; Num 2];
                  [NaN; Num 3];
                  [Text "   "; Num 4];
                  [Text "Austin"; Num 5];
                  [Num 42; Num 6]])
              "City" ["Score"] eq_refl eq_refl eq_refl)
    as (T & HT & Hrows & _).
  - intros [E|[]]. discriminate.
  - exists T. split; [exact HT|exact Hrows].
Defined.

Lemma load_excel_keeps_row_order_witness :
  exists T,
    fst (run_load Samples.three_rows) = Return (Some T)
    /\ map row_cells (rows T)
       = [[Text "Austin"; Num 7; Num 1]; [Text "Boise"; Num 9; Num 3]]
    /\ map row_label (rows T) = seq 0 (List.length (rows T)).
Proof.
  destruct (proj1 (load_excel_keeps_row_order Samples.three_rows)
              (mkParsed ["City"; "Score"; "Rank"]
                 [[Text "Austin"; Num 7; Num 1];
                  [Text "   "; Num 8; Num 2];
                  [Text "Boise"; Num 9; Num 3]])
              "City" ["Score"; "Rank"] eq_refl eq_refl eq_refl)
    as (T & HT & _ & Hrows & Hlabels).
  - intros [E|[E|[]]]; discriminate.
  - exists T. split; [exact HT|]. split; [exact Hrows|exact Hlabels].
Defined.

Lemma load_excel_strips_column_names_witness :
  exists T,
    fst (run_load Samples.header_in_row4) = Return (Some T)
    /\ columns T = ["City"; "Water Stress"]
    /\ Forall (fun name => PyStr.trimmed name = true) (columns T).
Proof.
  destruct (proj1 (load_excel_strips_column_names Samples.header_in_row4)
              (mkParsed ["City"; "  Water Stress  "]
                 [[Text "Austin"; Num 3]; [Text "Reno"; Num 4]])
              "City" ["Water Stress"] eq_refl eq_refl eq_refl)
    as (T & HT & Hcols & _ & Htrim).
  - intros [E|[]]. discriminate.
  - exists T. split; [exact HT|]. split; [exact Hcols|exact Htrim].
Defined.

Lemma strip_strip (s : string) : PyStr.strip (PyStr.strip s) = PyStr.strip s.
Proof. apply strip_id, strip_trimmed. Qed.

Lemma filter_twice {A : Type} (f : A -> bool) (l : list A) :
  filter f (filter f l) = filter f l.
Proof.
  induction l as [|x l IH]; simpl; [reflexivity|].
  destruct (f x) eqn:E; simpl; [now rewrite E, IH|exact IH].
Qed.

Section LoadedAgain.

Variables (w : World) (T : DataFrame).
Hypothesis Hret : fst (run_load w) = Return (Some T).

(** X4.  Normalising a second time changes nothing: when a read with
    header row 2 parses to exactly the column names and the rows of a table
    a call returned, and the first of these names is no placeholder, the
    call returns that very table, names, rows and row labels, after this
    one read. *)
Theorem load_excel_reload (w2 : World)
  (Hfile : isfile w2 = true)
  (Hparse : parse w2 2 = inr (mkParsed (columns T) (map row_cells (rows T))))
  (Hname : forall c, hd_error (columns T) = Some c ->
                     is_placeholder c = false) :
  run_load w2 = (Return (Some T), [IsFile; ReadExcel 2]).
Proof.
  destruct (loaded_source w T Hret) as (h & p & _ & _ & Hcols & Hrows & Hcells).
  destruct (loaded_unique_key w T Hret) as (k & others & Hk & Hu).
  rewrite run_load_cases. unfold load_excel_cases.
  rewrite Hfile, Hparse. cbn [header].
  rewrite Hk. rewrite (Hname k) by now rewrite Hk.
  f_equal. unfold normalized. cbn [header body].
  assert (Hs : map PyStr.strip (columns T) = columns T).
  { rewrite Hcols, map_map. apply map_ext. intros a. apply strip_strip. }
  rewrite <- Hk, Hs, Hk, Hu, Hcells, filter_twice, <- Hrows, <- Hk.
  now destruct T.
Qed.

(** X5.  In a returned table the name of the key column is the name of no
    other column: it is not among the metric columns, and when the table
    has a row its columns are the key column followed by the metric
    columns. *)
Theorem loaded_key_not_a_metric :
  exists city_col,
    hd_error (columns T) = Some city_col
    /\ ~ In city_col (get_metric_columns (Some T))
    /\ ~ In city_col (tl (columns T))
    /\ (rows T <> [] ->
        columns T = city_col :: get_metric_columns (Some T)).
Proof.
  destruct (loaded_unique_key w T Hret) as (k & others & Hk & Hu).
  assert (Hnot : ~ In k others).
  { intros Hin.
    assert (E : existsb (String.eqb k) others = true)
      by (apply existsb_exists; exists k; split;
          [exact Hin|apply String.eqb_refl]).
    congruence. }
  exists k.
  split; [now rewrite Hk|].
  assert (Hm : get_metric_columns (Some T) = []
               \/ get_metric_columns (Some T) = others).
  { unfold get_metric_columns. rewrite Hk.
    destruct (empty T || _); [now left|now right]. }
  split; [destruct Hm as [-> | ->]; [intros []|exact Hnot]|].
  split; [now rewrite Hk|].
  intros Hrows. unfold get_metric_columns, empty. rewrite Hk.
  destruct (rows T) as [|r rs]; [congruence|]. simpl.
  destruct others as [|o os]; reflexivity.
Qed.

End LoadedAgain.

Lemma load_excel_reload_witness :
  run_load MoreSamples.austin_boise
  = (Return (Some (mkDataFrame ["City"; "Score"; "Rank"]
                     [(0, [Text "Austin"; Num 7; Num 1]);
                      (1, [Text "Boise"; Num 9; Num 3])])),
     [IsFile; ReadExcel 2]).
Proof.
  refine (load_excel_reload Samples.three_rows _ eq_refl
            MoreSamples.austin_boise eq_refl eq_refl _).
  intros c Hc. injection Hc as <-. reflexivity.
Defined.

Lemma loaded_key_not_a_metric_witness :
  exists city_col,
    hd_error ["City"; "Score"; "Rank"] = Some city_col
    /\ ~ In city_col ["Score"; "Rank"].
Proof.
  destruct (loaded_key_not_a_metric Samples.three_rows
              (mkDataFrame ["City"; "Score"; "Rank"]
                 [(0, [Text "Austin"; Num 7; Num 1]);
                  (1, [Text "Boise"; Num 9; Num 3])])
              eq_refl) as (c & Hc & Hm & _).
  exists c. split; [exact Hc|exact Hm].
Defined.

Lemma load_excel_none_iff_missing_witness :
  fst (run_load Samples.absent) = Return None.
Proof.
  apply (load_excel_none_iff_missing Samples.absent). reflexivity.
Defined.

Lemma load_excel_twin_key_label_witness :
  fst (run_load MoreSamples.padded_twin) = Raise AttributeError.
Proof.
  refine (proj1 (load_excel_twin_key_label MoreSamples.padded_twin
                   (mkParsed ["City"; " City "] [[Text "Austin"; Text "TX"]])
                   "City" ["City"] eq_refl eq_refl eq_refl _)).
  now left.
Defined.

Lemma load_excel_index_error_iff_witness :
  fst (run_load MoreSamples.no_columns) = Raise IndexError.
Proof.
  apply (proj1 (load_excel_index_error_iff MoreSamples.no_columns)).
  split; [reflexivity|].
  exists (mkParsed [] []). now split.
Defined.

(** * The session and the sidebar *)

Section Session.

Lemma session_get_set (s : SessionState) (k : string)
  (v : option DataFrame) :
  session_get (session_setitem s k v) k = v.
Proof.
  induction s as [|[k' v'] s IH]; simpl.
  - now rewrite String.eqb_refl.
  - destruct (String.eqb k' k) eqn:E; simpl; now rewrite E.
Qed.

Lemma session_get_other (s : SessionState) (k k2 : string)
  (v : option DataFrame) :
  k2 <> k -> session_get (session_setitem s k v) k2 = session_get s k2.
Proof.
  intros Hne. induction s as [|[k' v'] s IH]; simpl.
  - apply String.eqb_neq in Hne. rewrite String.eqb_sym. now rewrite Hne.
  - destruct (String.eqb k' k) eqn:E; simpl.
    + apply String.eqb_eq in E. subst k'.
      assert (E2 : String.eqb k k2 = false)
        by (apply String.eqb_neq; congruence).
      now rewrite E2.
    + destruct (String.eqb k' k2); [reflexivity|exact IH].
Qed.

Variables (w : World) (pg : Page).

(** X6.  When the load returns, [setup_sidebar] stores exactly what it
    returned under "df", whatever the session held there before, and
    touches no other key; the sidebar gains one caption when a table came
    back and none for [None]; the script then reads this run's result from
    the session. *)
Theorem setup_sidebar_stores_result (r : option DataFrame)
  (Hr : fst (run_load w) = Return r) :
  fst (setup_sidebar w pg) = Return tt
  /\ session_get (session_state (snd (setup_sidebar w pg))) "df" = r
  /\ (forall k, k <> "df" ->
        session_get (session_state (snd (setup_sidebar w pg))) k
        = session_get (session_state pg) k)
  /\ sidebar (snd (setup_sidebar w pg))
     = sidebar pg ++ match r with
                     | Some d => [loaded_caption d]
                     | None => []
                     end
  /\ files (snd (setup_sidebar w pg)) = files pg ++ snd (run_load w)
  /\ fst (script_df w pg) = Return r.
Proof.
  unfold script_df, setup_sidebar.
  rewrite (load_excel_closed w (files pg)), <- run_load_cases, Hr.
  destruct r as [d|]; simpl.
  - rewrite session_get_set. repeat split; try reflexivity.
    intros k Hk. now apply session_get_other.
  - rewrite session_get_set, app_nil_r. repeat split; try reflexivity.
    intros k Hk. now apply session_get_other.
Qed.

(** X7.  When the load raises, [setup_sidebar] raises the same exception
    before it stores anything: the session keeps what it held, the table of
    an earlier run included, no caption is written, and the script stops
    with that exception. *)
Theorem setup_sidebar_propagates (e : Exception)
  (He : fst (run_load w) = Raise e) :
  fst (setup_sidebar w pg) = Raise e
  /\ session_state (snd (setup_sidebar w pg)) = session_state pg
  /\ sidebar (snd (setup_sidebar w pg)) = sidebar pg
  /\ fst (script_df w pg) = Raise e.
Proof.
  unfold script_df, setup_sidebar.
  rewrite (load_excel_closed w (files pg)), <- run_load_cases, He.
  now repeat split.
Qed.

End Session.

Lemma setup_sidebar_stores_result_witness :
  session_get
    (session_state
       (snd (setup_sidebar Samples.duplicates MoreSamples.stale_page))) "df"
  = Some MoreSamples.reno_austin
  /\ sidebar (snd (setup_sidebar Samples.duplicates MoreSamples.stale_page))
     = ["Loaded: **1** cities"; "Loaded: **3** cities"].
Proof.
  destruct (setup_sidebar_stores_result Samples.duplicates
              MoreSamples.stale_page (Some MoreSamples.reno_austin) eq_refl)
    as (_ & Hget & _ & Hside & _).
  split; [exact Hget|exact Hside].
Defined.

Lemma setup_sidebar_propagates_witness :
  session_state (snd (setup_sidebar Samples.no_sheet MoreSamples.stale_page))
  = session_state MoreSamples.stale_page.
Proof.
  exact (proj1 (proj2 (setup_sidebar_propagates Samples.no_sheet
                         MoreSamples.stale_page (ExcelReadError MissingSheet)
                         eq_refl))).
Defined.

(** * The City Comparison view *)

(** ** Sorting and de-duplicating the options *)

Section Options.

Lemma ascii_compare_refl (a : ascii) : Ascii.compare a a = Eq.
Proof. unfold Ascii.compare. apply N.compare_refl. Qed.

Lemma ascii_compare_lt_trans (a b c : ascii) :
  Ascii.compare a b = Lt -> Ascii.compare b c = Lt -> Ascii.compare a c = Lt.
Proof.
  unfold Ascii.compare. rewrite !N.compare_lt_iff. lia.
Qed.

Lemma string_compare_lt_trans (a b c : string) :
  String.compare a b = Lt -> String.compare b c = Lt ->
  String.compare a c = Lt.
Proof.
  revert b c. induction a as [|x a IH]; intros [|y b] [|z c]; simpl;
    try discriminate; try reflexivity.
  destruct (Ascii.compare x y) eqn:Exy; try discriminate;
    destruct (Ascii.compare y z) eqn:Eyz; try discriminate; intros H1 H2.
  - apply Ascii.compare_eq_iff in Exy, Eyz. subst.
    rewrite ascii_compare_refl. now apply (IH b c).
  - apply Ascii.compare_eq_iff in Exy. subst. now rewrite Eyz.
  - apply Ascii.compare_eq_iff in Eyz. subst. now rewrite Exy.
  - now rewrite (ascii_compare_lt_trans x y z Exy Eyz).
Qed.

Lemma before_trans (a b c : string) : before a b -> before b c -> before a c.
Proof.
  unfold before, String.ltb. intros H1 H2.
  destruct (String.compare a b) eqn:E1; try discriminate.
  destruct (String.compare b c) eqn:E2; try discriminate.
  now rewrite (string_compare_lt_trans a b c E1 E2).
Qed.

Lemma leb_neq_before (a b : string) :
  String.leb a b = true -> a <> b -> before a b.
Proof.
  unfold before, String.leb, String.ltb. intros H Hne.
  destruct (String.compare a b) eqn:E; try discriminate; [|reflexivity].
  apply String.compare_eq_iff in E. contradiction.
Qed.

Lemma insert_sorted_In (x y : string) (l : list string) :
  In x (insert_sorted y l) <-> x = y \/ In x l.
Proof.
  induction l as [|z l IH]; simpl.
  - intuition.
  - destruct (String.leb y z); simpl; [intuition|].
    rewrite IH. intuition.
Qed.

Lemma list_sort_In (x : string) (l : list string) :
  In x (list_sort l) <-> In x l.
Proof.
  induction l as [|y l IH]; simpl; [reflexivity|].
  rewrite insert_sorted_In, IH. intuition.
Qed.

Lemma insert_sorted_NoDup (y : string) (l : list string) :
  NoDup l -> ~ In y l -> NoDup (insert_sorted y l).
Proof.
  induction l as [|z l IH]; simpl; intros Hnd Hy.
  - constructor; [intros []|constructor].
  - destruct (String.leb y z).
    + constructor; [exact Hy|exact Hnd].
    + inversion Hnd as [|? ? Hz Hl]; subst.
      constructor.
      * rewrite insert_sorted_In. intuition.
      * apply IH; intuition.
Qed.

Lemma list_sort_NoDup (l : list string) : NoDup l -> NoDup (list_sort l).
Proof.
  induction 1 as [|y l Hy Hnd IH]; simpl; [constructor|].
  apply insert_sorted_NoDup; [exact IH|]. now rewrite list_sort_In.
Qed.

Lemma insert_sorted_strict (y : string) (l : list string) :
  StronglySorted before l -> ~ In y l ->
  StronglySorted before (insert_sorted y l).
Proof.
  induction l as [|z l IH]; simpl; intros Hs Hy.
  - constructor; constructor.
  - inversion Hs as [|? ? Hl Hz]; subst.
    destruct (String.leb y z) eqn:E.
    + assert (Hyz : before y z) by (apply leb_neq_before; intuition).
      constructor; [exact Hs|].
      constructor; [exact Hyz|].
      rewrite Forall_forall in *. intros u Hu.
      apply (before_trans y z u Hyz). now apply Hz.
    + constructor; [apply IH; intuition|].
      rewrite Forall_forall in *. intros u Hu.
      apply insert_sorted_In in Hu. destruct Hu as [->|Hu]; [|now apply Hz].
      apply leb_neq_before; [|intuition].
      destruct (String.leb_total y z) as [H|H]; congruence.
Qed.

(** Sorting distinct strings puts each strictly before all that follow. *)
Lemma list_sort_strict (l : list string) :
  NoDup l -> StronglySorted before (list_sort l).
Proof.
  induction 1 as [|y l Hy Hnd IH]; simpl; [constructor|].
  apply insert_sorted_strict; [exact IH|]. now rewrite list_sort_In.
Qed.

Lemma existsb_eqb_In (x : string) (l : list string) :
  existsb (String.eqb x) l = true <-> In x l.
Proof.
  rewrite existsb_exists. split.
  - intros (y & Hy & E). apply String.eqb_eq in E. now subst.
  - intros H. exists x. split; [exact H|apply String.eqb_refl].
Qed.

Lemma unique_from_In (x : string) (seen l : list string) :
  In x (unique_from seen l) <-> In x l /\ ~ In x seen.
Proof.
  revert seen. induction l as [|y l IH]; intros seen; simpl.
  - intuition.
  - destruct (existsb (String.eqb y) seen) eqn:E.
    + apply existsb_eqb_In in E. rewrite IH.
      split; [intuition|]. intros [[->|H] Hs]; intuition.
    + assert (Hy : ~ In y seen).
      { intros H. apply existsb_eqb_In in H. congruence. }
      simpl. rewrite IH. simpl.
      destruct (String.eqb_spec y x) as [->|Hne]; intuition.
Qed.

Lemma unique_from_NoDup (seen l : list string) : NoDup (unique_from seen l).
Proof.
  revert seen. induction l as [|y l IH]; intros seen; simpl.
  - constructor.
  - destruct (existsb (String.eqb y) seen); [apply IH|].
    constructor; [|apply IH].
    rewrite unique_from_In. simpl. intuition.
Qed.

Lemma unique_In (x : string) (l : list string) : In x (unique l) <-> In x l.
Proof. unfold unique. rewrite unique_from_In. simpl. intuition. Qed.

End Options.

(** ** The city options *)

Section CityOptions.

Lemma filter_map_swap {A B : Type} (f : A -> B) (g : B -> bool)
  (l : list A) :
  filter g (map f l) = map f (filter (fun a => g (f a)) l).
Proof.
  induction l as [|a l IH]; simpl; [reflexivity|].
  destruct (g (f a)); simpl; now rewrite IH.
Qed.

(** The options, on a frame whose first label labels no other column. *)
Lemma cities_all_unique_key (df : DataFrame) (k : string)
  (others : list string) :
  columns df = k :: others ->
  existsb (String.eqb k) others = false ->
  cities_all df
  = Return (list_sort
              (unique (map key_text
                         (filter (fun r => notna (key (row_cells r)))
                            (rows df))))).
Proof.
  intros Hc Hu. unfold cities_all, pd.getitem, pd.get_indexer_for.
  rewrite Hc. simpl. rewrite String.eqb_refl.
  rewrite (positions_from_absent 1 others k Hu). simpl.
  rewrite filter_map_swap, !map_map. simpl. reflexivity.
Qed.

Lemma cities_all_members (df : DataFrame) (k : string)
  (others : list string) :
  columns df = k :: others ->
  existsb (String.eqb k) others = false ->
  exists all,
    cities_all df = Return all
    /\ forall c,
        In c all
        <-> exists r, In r (rows df)
                      /\ key (row_cells r) <> NaN
                      /\ key_text r = c.
Proof.
  intros Hc Hu. eexists.
  split; [apply (cities_all_unique_key df k others Hc Hu)|].
  intros c. rewrite list_sort_In, unique_In, in_map_iff.
  split.
  - intros (r & Hr & Hin). apply filter_In in Hin.
    destruct Hin as [Hin Hn]. exists r. split; [exact Hin|].
    split; [|exact Hr]. intros E. rewrite E in Hn. discriminate.
  - intros (r & Hin & Hn & Hr). exists r. split; [exact Hr|].
    apply filter_In. split; [exact Hin|].
    destruct (key (row_cells r)); [contradiction|reflexivity|reflexivity].
Qed.

Variables (df : DataFrame) (k : string) (others : list string).
Hypothesis Hcols : columns df = k :: others.

(** X8.  On a frame whose key label is the label of another column too,
    computing the city options raises [AttributeError].  Otherwise the
    options are the stripped texts of the keys that are not null, each
    once, every option strictly before all that follow it in code-point
    order. *)
Theorem cities_all_sorted_distinct :
  (In k others -> cities_all df = Raise AttributeError)
  /\ (~ In k others ->
      exists all,
        cities_all df = Return all
        /\ StronglySorted before all
        /\ NoDup all
        /\ forall c,
            In c all
            <-> exists r, In r (rows df)
                          /\ key (row_cells r) <> NaN
                          /\ key_text r = c).
Proof.
  split.
  - intros Hin. apply existsb_eqb_In in Hin.
    destruct (positions_from_present 1 others k Hin) as (q & qs & Hq).
    unfold cities_all, pd.getitem, pd.get_indexer_for.
    rewrite Hcols. simpl. rewrite String.eqb_refl, Hq. reflexivity.
  - intros Hnot.
    assert (Hu : existsb (String.eqb k) others = false).
    { destruct (existsb (String.eqb k) others) eqn:E; [|reflexivity].
      apply existsb_eqb_In in E. contradiction. }
    eexists. split; [apply (cities_all_unique_key df k others Hcols Hu)|].
    split; [apply list_sort_strict, unique_from_NoDup|].
    split; [apply list_sort_NoDup, unique_from_NoDup|].
    intros c. rewrite list_sort_In, unique_In, in_map_iff.
    split.
    + intros (r & Hr & Hin). apply filter_In in Hin.
      destruct Hin as [Hin Hn]. exists r. split; [exact Hin|].
      split; [|exact Hr]. intros E. rewrite E in Hn. discriminate.
    + intros (r & Hin & Hn & Hr). exists r. split; [exact Hr|].
      apply filter_In. split; [exact Hin|].
      destruct (key (row_cells r)); [contradiction|reflexivity|reflexivity].
Qed.

End CityOptions.

Lemma cities_all_sorted_distinct_witness :
  exists all,
    cities_all MoreSamples.reno_austin = Return all
    /\ StronglySorted before all
    /\ NoDup all.
Proof.
  destruct (cities_all_sorted_distinct MoreSamples.reno_austin
              "City" ["Score"] eq_refl) as [_ H].
  destruct H as (all & Hall & Hs & Hn & _).
  - intros [E|[]]. discriminate.
  - exists all. split; [exact Hall|]. split; [exact Hs|exact Hn].
Defined.

Section LoadedOptions.

Variables (w : World) (T : DataFrame).
Hypothesis Hret : fst (run_load w) = Return (Some T).

Lemma loaded_rows_keep (r : Row) :
  In r (rows T) -> keeps (row_cells r) = true.
Proof.
  intros Hin.
  destruct (loaded_source w T Hret) as (h & p & _ & _ & _ & _ & Hcells).
  apply (in_map row_cells) in Hin. rewrite Hcells in Hin.
  now apply filter_In in Hin.
Qed.

(** X9.  On a returned table the city options are computed without an
    exception; an option is never empty and has no surrounding whitespace;
    and a name is an option exactly when the row lookup of the bar chart
    finds a row for it, so that [make_bar_chart] returns [None] for no
    option and for every other name. *)
Theorem loaded_options_have_rows :
  exists all,
    cities_all T = Return all
    /\ (forall c, In c all ->
          c <> EmptyString /\ PyStr.trimmed c = true)
    /\ (forall c, In c all <->
          exists r, make_bar_chart_row T c = Return (Some r))
    /\ (forall c, ~ In c all <-> make_bar_chart_row T c = Return None).
Proof.
  destruct (loaded_unique_key w T Hret) as (k & others & Hk & Hu).
  assert (Hnot : ~ In k others).
  { intros Hin. apply existsb_eqb_In in Hin. congruence. }
  destruct (cities_all_members T k others Hk Hu) as (all & Hall & Hmem).
  assert (Hfind : forall c,
             In c all <->
             exists r, find (fun r => String.eqb (key_text r) c) (rows T)
                       = Some r).
  { intros c. rewrite Hmem. split.
    - intros (r & Hin & _ & Hr).
      destruct (find (fun r => String.eqb (key_text r) c) (rows T))
        as [r'|] eqn:E; [now exists r'|].
      apply find_none in E. rewrite Forall_forall in E.
      specialize (E r Hin). apply String.eqb_neq in E. contradiction.
    - intros (r & Hr). apply find_some in Hr. destruct Hr as [Hin Hr].
      apply String.eqb_eq in Hr. exists r. split; [exact Hin|].
      split; [|exact Hr].
      pose proof (loaded_rows_keep r Hin) as Hkeep.
      unfold keeps, blank_key in Hkeep. intros E. rewrite E in Hkeep.
      discriminate. }
  exists all. split; [exact Hall|]. split; [|split].
  - intros c Hc. apply Hmem in Hc. destruct Hc as (r & Hin & _ & <-).
    split; [|apply strip_trimmed].
    pose proof (loaded_rows_keep r Hin) as Hkeep.
    unfold keeps, blank_key in Hkeep.
    apply negb_true_iff, orb_false_elim in Hkeep.
    destruct Hkeep as [_ Hne]. now apply String.eqb_neq in Hne.
  - intros c. rewrite (make_bar_chart_row_find T k others c Hk Hu).
    rewrite Hfind. split; intros [r Hr]; exists r; congruence.
  - intros c. rewrite (make_bar_chart_row_find T k others c Hk Hu).
    rewrite Hfind. split.
    + intros Hno.
      destruct (find _ (rows T)) as [r|]; [|reflexivity].
      exfalso. apply Hno. now exists r.
    + intros H [r Hr]. congruence.
Qed.

End LoadedOptions.

Lemma loaded_options_have_rows_witness :
  exists all,
    cities_all MoreSamples.reno_austin = Return all
    /\ (forall c, In c all <->
          exists r,
            make_bar_chart_row MoreSamples.reno_austin c = Return (Some r)).
Proof.
  destruct (loaded_options_have_rows Samples.duplicates
              MoreSamples.reno_austin eq_refl) as (all & Hall & _ & Hiff & _).
  exists all. split; [exact Hall|exact Hiff].
Defined.

(** ** The colours of the bars *)

Section Colours.

Lemma dict_get_set (d : Dict) (k v : string) :
  dict_getitem (dict_setitem d k v) k = Return v.
Proof.
  induction d as [|[k' v'] d IH]; simpl.
  - now rewrite String.eqb_refl.
  - destruct (String.eqb k' k) eqn:E; simpl; now rewrite E.
Qed.

Lemma dict_get_other (d : Dict) (k k2 v : string) :
  k2 <> k -> dict_getitem (dict_setitem d k v) k2 = dict_getitem d k2.
Proof.
  intros Hne. induction d as [|[k' v'] d IH]; simpl.
  - apply String.eqb_neq in Hne. rewrite String.eqb_sym. now rewrite Hne.
  - destruct (String.eqb k' k) eqn:E; simpl.
    + apply String.eqb_eq in E. subst k'.
      assert (E2 : String.eqb k k2 = false)
        by (apply String.eqb_neq; congruence).
      now rewrite E2.
    + destruct (String.eqb k' k2); [reflexivity|exact IH].
Qed.

Lemma metric_to_color_from_absent (i : nat) (ms : list string) (d : Dict)
  (m : string) :
  ~ In m ms ->
  dict_getitem (metric_to_color_from i ms d) m = dict_getitem d m.
Proof.
  revert i d. induction ms as [|m0 ms IH]; intros i d Hm; [reflexivity|].
  simpl in *. rewrite IH by intuition.
  apply dict_get_other. intuition.
Qed.

(** The entry of a name is written at its last position. *)
Lemma metric_to_color_from_last (i : nat) (ms : list string) (d : Dict)
  (m : string) (j : nat) :
  nth_error ms j = Some m ->
  (forall j', j < j' -> nth_error ms j' <> Some m) ->
  dict_getitem (metric_to_color_from i ms d) m
  = Return (nth ((i + j) mod List.length METRIC_COLORS) METRIC_COLORS
              EmptyString).
Proof.
  revert i d j. induction ms as [|m0 ms IH]; intros i d j Hj Hlast.
  - now destruct j.
  - destruct j as [|j]; simpl in Hj.
    + injection Hj as ->. cbn [metric_to_color_from].
      rewrite metric_to_color_from_absent.
      * rewrite dict_get_set. now rewrite Nat.add_0_r.
      * intros Hin. apply In_nth_error in Hin. destruct Hin as [n Hn].
        apply (Hlast (S n)); [lia|exact Hn].
    + cbn [metric_to_color_from]. rewrite (IH (S i) _ j Hj).
      * now replace (S i + j) with (i + S j) by lia.
      * intros j' Hlt. apply (Hlast (S j')). lia.
Qed.

Lemma last_position (m : string) (ms : list string) :
  In m ms ->
  exists j, nth_error ms j = Some m
            /\ forall j', j < j' -> nth_error ms j' <> Some m.
Proof.
  induction ms as [|m0 ms IH]; [intros []|].
  intros Hin. destruct (in_dec string_dec m ms) as [Hlater|Hnot].
  - destruct (IH Hlater) as (j & Hj & Hlast). exists (S j).
    split; [exact Hj|]. intros [|j'] Hlt; [lia|]. apply Hlast. lia.
  - destruct Hin as [->|Hin]; [|contradiction].
    exists 0. split; [reflexivity|].
    intros [|j'] Hlt; [lia|]. simpl. intros H.
    apply nth_error_In in H. contradiction.
Qed.

Lemma palette_nth_In (n : nat) :
  In (nth (n mod List.length METRIC_COLORS) METRIC_COLORS EmptyString)
    METRIC_COLORS.
Proof.
  apply nth_In. apply Nat.mod_upper_bound. simpl. lia.
Qed.

(** X10.  In the colour dictionary a metric name has the palette colour of
    the last position at which it is selected, counted round the six
    colours; a name selected twice therefore gives both its bars the colour
    of the second. *)
Theorem metric_to_color_last_position (selected_metrics : list string)
  (m : string) (j : nat)
  (Hj : nth_error selected_metrics j = Some m)
  (Hlast : forall j', j < j' -> nth_error selected_metrics j' <> Some m) :
  dict_getitem (metric_to_color selected_metrics) m
  = Return (nth (j mod 6) METRIC_COLORS EmptyString).
Proof.
  unfold metric_to_color.
  now rewrite (metric_to_color_from_last 0 selected_metrics [] m j Hj Hlast).
Qed.

Lemma for_each_colours (all pre ms : list string) :
  NoDup all -> all = pre ++ ms ->
  for_each (dict_getitem (metric_to_color all)) ms
  = Return (map (fun j => nth (j mod 6) METRIC_COLORS EmptyString)
              (seq (List.length pre) (List.length ms))).
Proof.
  intros Hnd. revert pre. induction ms as [|m ms IH]; intros pre Hall.
  - reflexivity.
  - cbn [for_each]. unfold metric_to_color at 1.
    rewrite (metric_to_color_from_last 0 all [] m (List.length pre)).
    + simpl obind. fold (metric_to_color all).
      rewrite (IH (pre ++ [m])).
      * rewrite length_app. simpl. now rewrite Nat.add_1_r.
      * now rewrite <- app_assoc.
    + subst all. rewrite nth_error_app2 by lia.
      now rewrite Nat.sub_diag.
    + intros j' Hlt Hj'. subst all.
      apply NoDup_remove_2 in Hnd. apply Hnd.
      rewrite nth_error_app2 in Hj' by lia.
      destruct (j' - List.length pre) as [|n] eqn:E; [lia|].
      simpl in Hj'. apply nth_error_In in Hj'.
      apply in_or_app. now right.
Qed.

(** X11.  When the selected metric names are distinct, the bars are
    coloured in palette order, starting over after the sixth: bar [j] has
    colour [j mod 6].  With at most six metrics the colours are the first
    colours of the palette, no two bars alike. *)
Theorem bar_colors_cycle (selected_metrics : list string)
  (Hnd : NoDup selected_metrics) :
  for_each (dict_getitem (metric_to_color selected_metrics)) selected_metrics
  = Return (map (fun j => nth (j mod 6) METRIC_COLORS EmptyString)
              (seq 0 (List.length selected_metrics)))
  /\ (List.length selected_metrics <= 6 ->
      for_each (dict_getitem (metric_to_color selected_metrics))
        selected_metrics
      = Return (firstn (List.length selected_metrics) METRIC_COLORS)
      /\ NoDup (firstn (List.length selected_metrics) METRIC_COLORS)).
Proof.
  pose proof (for_each_colours selected_metrics [] selected_metrics Hnd
                eq_refl) as H.
  simpl in H. split; [exact H|].
  intros Hlen. rewrite H.
  assert (Hpal : NoDup METRIC_COLORS).
  { unfold METRIC_COLORS.
    repeat (constructor; [simpl; intuition discriminate|]). constructor. }
  split.
  - destruct (List.length selected_metrics)
      as [|[|[|[|[|[|[|n]]]]]]]; try reflexivity. lia.
  - clear H Hlen Hnd. revert Hpal. generalize METRIC_COLORS as pal.
    induction (List.length selected_metrics) as [|n IH]; intros pal Hpal;
      [constructor|].
    destruct pal as [|c pal]; [constructor|].
    inversion Hpal as [|? ? Hc Hrest]; subst. simpl.
    constructor; [|now apply IH].
    intros Hin. apply Hc. revert Hin. clear.
    revert pal. induction n as [|n IHn]; intros [|x pal]; simpl;
      try contradiction.
    intros [->|Hin]; [now left|right; now apply IHn].
Qed.

Lemma colours_total (selected_metrics ms : list string) :
  (forall m, In m ms -> In m selected_metrics) ->
  exists cs,
    for_each (dict_getitem (metric_to_color selected_metrics)) ms
    = Return cs
    /\ List.length cs = List.length ms
    /\ Forall (fun c => In c METRIC_COLORS) cs.
Proof.
  induction ms as [|m ms IH]; intros Hsub.
  - exists []. now repeat split.
  - destruct IH as (cs & Hcs & Hlen & Hall);
      [intros x Hx; apply Hsub; now right|].
    destruct (last_position m selected_metrics) as (j & Hj & Hlast);
      [apply Hsub; now left|].
    exists (nth (j mod 6) METRIC_COLORS EmptyString :: cs).
    cbn [for_each]. unfold metric_to_color at 1.
    rewrite (metric_to_color_from_last 0 selected_metrics [] m j Hj Hlast).
    simpl obind. fold (metric_to_color selected_metrics). rewrite Hcs.
    split; [reflexivity|]. split; [simpl; now rewrite Hlen|].
    constructor; [apply (palette_nth_In j)|exact Hall].
Qed.

(** X12.  Looking up the colour of each selected metric never raises
    [KeyError], whatever is selected: there is one colour per bar and each
    is a colour of the palette. *)
Theorem bar_colors_total (selected_metrics : list string) :
  exists cs,
    for_each (dict_getitem (metric_to_color selected_metrics))
      selected_metrics = Return cs
    /\ List.length cs = List.length selected_metrics
    /\ Forall (fun c => In c METRIC_COLORS) cs.
Proof.
  apply colours_total. auto.
Qed.

End Colours.

Lemma metric_to_color_last_position_witness :
  dict_getitem (metric_to_color ["Score"; "Rank"; "Score"]) "Score"
  = Return "#999999".
Proof.
  apply (metric_to_color_last_position ["Score"; "Rank"; "Score"] "Score" 2).
  - reflexivity.
  - intros [|[|[|[|j']]]] Hlt; simpl; try lia; discriminate.
Defined.

Lemma bar_colors_cycle_witness :
  for_each (dict_getitem (metric_to_color seven_metrics)) seven_metrics
  = Return ["#FFFFFF"; "#CCCCCC"; "#999999"; "#666666"; "#444444";
            "#2A2A2A"; "#FFFFFF"].
Proof.
  refine (proj1 (bar_colors_cycle seven_metrics _)).
  unfold seven_metrics.
  repeat (constructor; [simpl; intuition discriminate|]). constructor.
Defined.

(** ** The grid of charts *)

Section Grid.

Lemma skipn_nth_error {A : Type} (l : list A) (i : nat) (x : A) :
  nth_error l i = Some x -> skipn i l = x :: skipn (S i) l.
Proof.
  revert i. induction l as [|y l IH]; intros [|i] H; try discriminate.
  - now injection H as ->.
  - simpl in H. exact (IH i H).
Qed.

Lemma firstn_plus {A : Type} (a b : nat) (l : list A) :
  firstn (a + b) l = firstn a l ++ firstn b (skipn a l).
Proof.
  revert l. induction a as [|a IH]; intros [|x l]; simpl;
    try reflexivity.
  - now rewrite firstn_nil.
  - now rewrite IH.
Qed.

Lemma figures_app (ws1 ws2 : list Widget) :
  figures (ws1 ++ ws2) = figures ws1 ++ figures ws2.
Proof. unfold figures. apply flat_map_app. Qed.

Lemma charts_no_columns (cols : nat) (ws : list Widget) :
  Forall (chart_in cols) ws -> filter is_columns ws = [].
Proof.
  induction 1 as [|wd ws Hwd _ IH]; [reflexivity|].
  simpl. destruct wd; simpl in *; try contradiction. exact IH.
Qed.

Lemma charts_in_grid (cols : nat) (ws : list Widget) :
  Forall (chart_in cols) ws -> Forall (in_grid cols) ws.
Proof.
  apply Forall_impl. intros [] H; simpl in *; try contradiction. exact H.
Qed.

Variable chart : string -> Outcome (option Figure).
Variable selected_cities : list string.
Variable cols_per_row : nat.

Hypothesis Hchart :
  forall city, In city selected_cities -> exists o, chart city = Return o.

Lemma chart_row_spec (r c0 k : nat) :
  c0 + k <= cols_per_row ->
  exists ws,
    chart_row chart selected_cities cols_per_row r (seq c0 k) = Ok ws
    /\ figures ws
       = flat_map (drawn chart)
           (firstn k (skipn (r * cols_per_row + c0) selected_cities))
    /\ Forall (chart_in cols_per_row) ws.
Proof.
  revert c0. induction k as [|k IH]; intros c0 Hle.
  - exists []. now repeat split.
  - cbn [seq chart_row].
    destruct (Nat.leb_spec (List.length selected_cities)
                (r * cols_per_row + c0)) as [Hout|Hin].
    + exists []. split; [reflexivity|]. split; [|constructor].
      now rewrite skipn_all2.
    + destruct (nth_error selected_cities (r * cols_per_row + c0))
        as [city|] eqn:E; [|apply nth_error_None in E; lia].
      unfold pd.index_getitem. rewrite E. simpl.
      destruct (Hchart city (nth_error_In _ _ E)) as [o Ho].
      rewrite Ho. simpl.
      destruct (IH (S c0)) as (ws & Hws & Hfig & Hall); [lia|].
      rewrite Hws. simpl.
      rewrite (skipn_nth_error _ _ _ E). cbn [firstn flat_map].
      replace (S (r * cols_per_row + c0)) with (r * cols_per_row + S c0)
        by lia.
      unfold drawn at 1. rewrite Ho.
      destruct o as [f|].
      * eexists. split; [reflexivity|]. split.
        -- simpl. now rewrite Hfig.
        -- constructor; [simpl; lia|exact Hall].
      * exists ws. split; [reflexivity|]. now split.
Qed.

Lemma chart_rows_spec (r0 m : nat) :
  exists ws,
    chart_rows chart selected_cities cols_per_row (seq r0 m) = Ok ws
    /\ figures ws
       = flat_map (drawn chart)
           (firstn (m * cols_per_row)
              (skipn (r0 * cols_per_row) selected_cities))
    /\ Forall (in_grid cols_per_row) ws
    /\ List.length (filter is_columns ws) = m.
Proof.
  revert r0. induction m as [|m IH]; intros r0.
  - exists []. now repeat split.
  - cbn [seq chart_rows].
    destruct (chart_row_spec r0 0 cols_per_row) as (here & Hh & Hfh & Hah);
      [lia|].
    rewrite Hh. simpl.
    destruct (IH (S r0)) as (below & Hb & Hfb & Hab & Hcb).
    rewrite Hb. simpl.
    eexists. split; [reflexivity|]. split; [|split].
    + change (figures (Columns cols_per_row :: here ++ below))
        with (figures (here ++ below)).
      rewrite figures_app, Hfh, Hfb, Nat.add_0_r.
      rewrite <- flat_map_app. f_equal.
      rewrite firstn_plus, skipn_skipn. reflexivity.
    + constructor; [reflexivity|]. apply Forall_app.
      split; [now apply charts_in_grid|exact Hab].
    + simpl. rewrite filter_app, length_app, Hcb.
      now rewrite (charts_no_columns _ _ Hah).
Qed.

End Grid.

Section GridShape.

Variable chart : string -> Outcome (option Figure).

Lemma grid_rows_enough (n cols : nat) :
  0 < cols ->
  n <= (n + cols - 1) / cols * cols
  /\ ((n + cols - 1) / cols - 1) * cols < n + (if (n =? 0)%nat then 1 else 0).
Proof.
  intros Hc.
  pose proof (Nat.div_mod_eq (n + cols - 1) cols) as E.
  pose proof (Nat.mod_upper_bound (n + cols - 1) cols) as U.
  destruct (Nat.eqb_spec n 0); nia.
Qed.

Lemma floordiv_pos (a b : nat) : 0 < b -> floordiv a b = Ok (a / b).
Proof. destruct b; [lia|reflexivity]. Qed.

Lemma chart_grid_spec (selected_cities : list string)
  (Hsel : selected_cities <> [])
  (Hchart : forall city, In city selected_cities ->
                         exists o, chart city = Return o) :
  let n := List.length selected_cities in
  let cols := if (2 <? n)%nat then 2 else n in
  exists ws,
    chart_grid chart selected_cities = Ok ws
    /\ figures ws = flat_map (drawn chart) selected_cities
    /\ Forall (in_grid cols) ws
    /\ 1 <= cols <= 2
    /\ n <= List.length (filter is_columns ws) * cols
    /\ (List.length (filter is_columns ws) - 1) * cols < n.
Proof.
  cbv zeta. unfold chart_grid.
  set (n := List.length selected_cities).
  assert (Hn : 0 < n).
  { unfold n. destruct selected_cities; [congruence|simpl; lia]. }
  set (cols := if (2 <? n)%nat then 2 else n).
  assert (Hcols : 1 <= cols <= 2).
  { unfold cols. destruct (Nat.ltb_spec 2 n); lia. }
  rewrite floordiv_pos by lia. simpl rbind.
  destruct (chart_rows_spec chart selected_cities cols Hchart 0
              ((n + cols - 1) / cols)) as (ws & Hws & Hfig & Hall & Hcount).
  destruct (grid_rows_enough n cols) as [Hge Hlt]; [lia|].
  exists ws. split; [exact Hws|]. split.
  - rewrite Hfig. simpl skipn. now rewrite firstn_all2 by (fold n; lia).
  - split; [exact Hall|]. split; [exact Hcols|]. rewrite Hcount.
    split; [exact Hge|].
    destruct (Nat.eqb_spec n 0); lia.
Qed.

(** X13.  For a selection that is not empty and on whose cities the chart
    function returns, the grid is computed without an exception and draws
    the figures of the selected cities, each once, in the order of the
    selection.  It is made of blocks of at most two columns, every chart
    sits in a column of its block, and there are as many blocks as the
    selection needs and no more. *)
Theorem chart_grid_one_chart_per_city (selected_cities : list string)
  (Hsel : selected_cities <> [])
  (Hchart : forall city, In city selected_cities ->
                         exists o, chart city = Return o) :
  let n := List.length selected_cities in
  let cols := if (2 <? n)%nat then 2 else n in
  exists ws,
    chart_grid chart selected_cities = Ok ws
    /\ figures ws = flat_map (drawn chart) selected_cities
    /\ Forall (in_grid cols) ws
    /\ 1 <= cols <= 2
    /\ n <= List.length (filter is_columns ws) * cols
    /\ (List.length (filter is_columns ws) - 1) * cols < n.
Proof.
  exact (chart_grid_spec selected_cities Hsel Hchart).
Qed.

Lemma chart_row_error (sc : list string) (cols r : nat) (cs : list nat)
  (e : ViewError) :
  chart_row chart sc cols r cs = Err e -> e <> ZeroDivisionError.
Proof.
  induction cs as [|c cs IH]; simpl; [discriminate|].
  destruct (_ <=? _)%nat; [discriminate|].
  destruct (pd.index_getitem sc (r * cols + c)) as [e1|city]; simpl;
    [intros H; injection H as <-; discriminate|].
  destruct (chart city) as [e2|fig]; simpl;
    [intros H; injection H as <-; discriminate|].
  destruct (chart_row chart sc cols r cs) as [e3|rest]; simpl;
    [intros H; injection H as <-; now apply IH|discriminate].
Qed.

Lemma chart_rows_error (sc : list string) (cols : nat) (rs : list nat)
  (e : ViewError) :
  chart_rows chart sc cols rs = Err e -> e <> ZeroDivisionError.
Proof.
  induction rs as [|r rs IH]; simpl; [discriminate|].
  destruct (chart_row chart sc cols r (seq 0 cols)) as [e1|here] eqn:E;
    simpl; [intros H; injection H as <-; now apply (chart_row_error _ _ _ _ _ E)|].
  destruct (chart_rows chart sc cols rs) as [e2|below]; simpl;
    [intros H; injection H as <-; now apply IH|discriminate].
Qed.

Lemma chart_grid_no_zero_division (sc : list string) :
  sc <> [] -> chart_grid chart sc <> Err ZeroDivisionError.
Proof.
  intros Hsc. unfold chart_grid.
  set (n := List.length sc).
  assert (Hn : 0 < n) by (unfold n; destruct sc; [congruence|simpl; lia]).
  set (cols := if (2 <? n)%nat then 2 else n).
  assert (Hcols : 1 <= cols) by (unfold cols; destruct (Nat.ltb_spec 2 n); lia).
  rewrite floordiv_pos by lia.
  simpl rbind. intros H. now apply chart_rows_error in H.
Qed.

End GridShape.

Lemma chart_grid_one_chart_per_city_witness :
  exists ws,
    chart_grid (fun city => Return (Some (mkFigure city [] [] [])))
      ["Reno"; "Austin"; "Boise"] = Ok ws
    /\ figures ws
       = [mkFigure "Reno" [] [] []; mkFigure "Austin" [] [] [];
          mkFigure "Boise" [] [] []].
Proof.
  destruct (chart_grid_one_chart_per_city
              (fun city => Return (Some (mkFigure city [] [] [])))
              ["Reno"; "Austin"; "Boise"])
    as (ws & Hws & Hfig & _).
  - discriminate.
  - intros city _. now eexists.
  - exists ws. split; [exact Hws|exact Hfig].
Defined.

(** ** The view as a whole *)

Section View.

(** X14.  Computing the grid for an empty selection divides by zero; the
    view never does: whatever the table and the selections, it does not
    raise [ZeroDivisionError], because it reaches the grid only with a
    selection that is not empty. *)
Theorem city_comparison_no_zero_division (df : option DataFrame)
  (selected_cities selected_metrics : list string) :
  (forall chart, chart_grid chart [] = Err ZeroDivisionError)
  /\ city_comparison df selected_cities selected_metrics
     <> Err ZeroDivisionError.
Proof.
  split; [reflexivity|].
  unfold city_comparison.
  destruct df as [d|]; [|discriminate].
  destruct (empty d); [discriminate|].
  destruct (cities_all d) as [e|all]; cbn [of_outcome rbind];
    [discriminate|].
  destruct (is_nil (get_metric_columns (Some d)) || is_nil all);
    [discriminate|].
  destruct selected_cities as [|c sc]; [discriminate|].
  destruct selected_metrics as [|m sm]; [discriminate|].
  cbn [is_nil orb].
  destruct (chart_grid _ (c :: sc)) as [e|charts] eqn:E; cbn [rbind];
    [|discriminate].
  intros H. injection H as ->.
  revert E. apply chart_grid_no_zero_division. discriminate.
Qed.

End View.

Section ForEach.

Context {A B : Type}.
Variable f : A -> Outcome B.

Lemma for_each_total (ms : list A) :
  (forall m, In m ms -> exists b, f m = Return b) ->
  exists bs, for_each f ms = Return bs
             /\ List.length bs = List.length ms.
Proof.
  induction ms as [|m ms IH]; intros H.
  - exists []. now split.
  - destruct (H m (or_introl eq_refl)) as [b Hb].
    destruct IH as (bs & Hbs & Hlen); [intros x Hx; apply H; now right|].
    exists (b :: bs). simpl. rewrite Hb. simpl. rewrite Hbs. simpl.
    split; [reflexivity|now rewrite Hlen].
Qed.

End ForEach.

Lemma row_getitem_total (cols : list string) (r : Row) (m : string) :
  In m cols -> exists v, row_getitem cols r m = Return v.
Proof.
  intros Hin. apply existsb_eqb_In in Hin.
  destruct (positions_from_present 0 cols m Hin) as (q & qs & Hq).
  unfold row_getitem, pd.get_indexer_for. rewrite Hq.
  destruct qs; now eexists.
Qed.

Lemma drawn_titles (chart : string -> Outcome (option Figure))
  (P : Figure -> Prop) (sc : list string) :
  (forall city, In city sc ->
     exists fig, chart city = Return (Some fig)
                 /\ title fig = city /\ P fig) ->
  map title (flat_map (drawn chart) sc) = sc
  /\ Forall P (flat_map (drawn chart) sc).
Proof.
  induction sc as [|city sc IH]; intros H; [now split|].
  destruct (H city (or_introl eq_refl)) as (fig & Hfig & Ht & HP).
  destruct IH as [IH1 IH2]; [intros x Hx; apply H; now right|].
  simpl. unfold drawn at 1 3. rewrite Hfig. simpl.
  split; [now rewrite Ht, IH1|now constructor].
Qed.

Section LoadedView.

Variables (w : World) (T : DataFrame).
Hypothesis Hret : fst (run_load w) = Return (Some T).

Lemma loaded_option_row (all : list string) (c : string) :
  cities_all T = Return all -> In c all ->
  exists r, make_bar_chart_row T c = Return (Some r).
Proof.
  intros Hall Hc.
  destruct (loaded_unique_key w T Hret) as (k & others & Hk & Hu).
  rewrite (cities_all_unique_key T k others Hk Hu) in Hall.
  injection Hall as <-.
  apply list_sort_In, unique_In, in_map_iff in Hc.
  destruct Hc as (r & Hr & Hin). apply filter_In in Hin.
  destruct Hin as [Hin _].
  rewrite (make_bar_chart_row_find T k others c Hk Hu).
  destruct (find (fun r => String.eqb (key_text r) c) (rows T))
    as [r'|] eqn:E; [now exists r'|].
  apply find_none in E. rewrite Forall_forall in E.
  specialize (E r Hin). apply String.eqb_neq in E. contradiction.
Qed.

Variables (all selected_cities selected_metrics : list string).
Hypothesis Hall : cities_all T = Return all.
Hypothesis Hc : selected_cities <> [].
Hypothesis Hm : selected_metrics <> [].
Hypothesis Hcs : incl selected_cities all.
Hypothesis Hms : incl selected_metrics (get_metric_columns (Some T)).

(** X15.  On a returned table, with cities and metrics selected among the
    options the two selectors offer, the lookups of the view raise nothing
    and it draws one bar chart per selected city, in selection order.  Each chart
    is titled with its city, has one bar per selected metric, and takes the
    values of its bars from the first row of the table whose stripped key
    is the city. *)
Theorem city_comparison_draws_selection :
  exists ws,
    city_comparison (Some T) selected_cities selected_metrics = Ok ws
    /\ In (Multiselect "Select cities (max 4)" all [] 4) ws
    /\ map title (figures ws) = selected_cities
    /\ Forall (fun fig =>
                 x_vals fig = selected_metrics
                 /\ List.length (y_vals fig) = List.length selected_metrics
                 /\ List.length (colors fig) = List.length selected_metrics
                 /\ exists r,
                     make_bar_chart_row T (title fig) = Return (Some r)
                     /\ for_each (row_getitem (columns T) r)
                          selected_metrics = Return (y_vals fig))
         (figures ws).
Proof.
  assert (Hmetrics : get_metric_columns (Some T) <> []).
  { destruct selected_metrics as [|m sm]; [congruence|].
    intros E. specialize (Hms m (or_introl eq_refl)). now rewrite E in Hms. }
  assert (Hempty : empty T = false).
  { destruct (empty T) eqn:E; [|reflexivity].
    exfalso. apply Hmetrics. simpl. now rewrite E. }
  assert (Hcols : forall m, In m selected_metrics -> In m (columns T)).
  { intros m Hin. apply Hms in Hin. simpl in Hin. rewrite Hempty in Hin.
    simpl in Hin. destruct (_ <? _)%nat; [contradiction|].
    destruct (columns T); [contradiction|now right]. }
  assert (Hallne : all <> []).
  { destruct selected_cities as [|c sc]; [congruence|].
    intros E. specialize (Hcs c (or_introl eq_refl)). now rewrite E in Hcs. }
  set (chart := make_bar_chart T selected_metrics
                  (metric_to_color selected_metrics)).
  assert (Hchart : forall city, In city selected_cities ->
            exists fig, chart city = Return (Some fig)
              /\ title fig = city
              /\ (x_vals fig = selected_metrics
                  /\ List.length (y_vals fig) = List.length selected_metrics
                  /\ List.length (colors fig)
                     = List.length selected_metrics
                  /\ exists r,
                      make_bar_chart_row T (title fig) = Return (Some r)
                      /\ for_each (row_getitem (columns T) r)
                           selected_metrics = Return (y_vals fig))).
  { intros city Hin.
    destruct (loaded_option_row all city Hall (Hcs city Hin)) as [r Hr].
    destruct (for_each_total (row_getitem (columns T) r) selected_metrics)
      as (ys & Hys & Hylen).
    { intros m Hm'. apply row_getitem_total. now apply Hcols. }
    destruct (colours_total selected_metrics selected_metrics)
      as (cs & Hcs' & Hclen & _); [auto|].
    exists (mkFigure city selected_metrics ys cs).
    unfold chart, make_bar_chart. rewrite Hr. simpl. rewrite Hys. simpl.
    rewrite Hcs'. simpl. repeat split; try assumption.
    exists r. now split. }
  destruct (chart_grid_spec chart selected_cities Hc)
    as (charts & Hgrid & Hfig & _).
  { intros city Hin. destruct (Hchart city Hin) as (fig & Hf & _).
    exists (Some fig). exact Hf. }
  destruct (drawn_titles chart _ selected_cities Hchart) as [Htitles HP].
  assert (N1 : is_nil (get_metric_columns (Some T)) || is_nil all = false).
  { destruct (get_metric_columns (Some T)); [congruence|].
    destruct all; [congruence|reflexivity]. }
  assert (N2 : is_nil selected_cities || is_nil selected_metrics = false).
  { destruct selected_cities; [congruence|].
    destruct selected_metrics; [congruence|reflexivity]. }
  exists ([Title "City Comparison";
           Markdown
             "Select up to 4 cities and up to 6 metrics to compare side by side."]
          ++ [Multiselect "Select cities (max 4)" all [] 4;
              Multiselect "Select metrics (max 6)"
                (get_metric_columns (Some T))
                (firstn (Nat.min 6 (List.length (get_metric_columns (Some T))))
                   (get_metric_columns (Some T))) 6]
          ++ charts).
  split.
  - unfold city_comparison. rewrite Hempty, Hall. cbn [of_outcome rbind].
    rewrite N1, N2. fold chart. rewrite Hgrid. reflexivity.
  - split; [simpl; auto|].
    rewrite !figures_app. simpl. rewrite Hfig. now split.
Qed.

End LoadedView.

Lemma city_comparison_draws_selection_witness :
  exists ws,
    city_comparison (Some MoreSamples.reno_austin) ["Austin"; "Reno"]
      ["Score"] = Ok ws
    /\ map title (figures ws) = ["Austin"; "Reno"].
Proof.
  destruct (city_comparison_draws_selection Samples.duplicates
              MoreSamples.reno_austin eq_refl
              ["Austin"; "Reno"] ["Austin"; "Reno"] ["Score"] eq_refl)
    as (ws & Hws & _ & Ht & _).
  - discriminate.
  - discriminate.
  - intros c Hc. exact Hc.
  - intros m Hm. exact Hm.
  - exists ws. split; [exact Hws|exact Ht].
Defined.

(** ** The values of the bars *)

Section BarValues.

Lemma positions_from_single (p : nat) (cols : list string) (m : string)
  (j : nat) :
  nth_error cols j = Some m ->
  (forall j', j' <> j -> nth_error cols j' <> Some m) ->
  pd.positions_from p cols m = [p + j].
Proof.
  revert p j. induction cols as [|c cols IH]; intros p j Hj Hone.
  - now destruct j.
  - destruct j as [|j]; simpl in Hj.
    + injection Hj as ->. simpl. rewrite String.eqb_refl, Nat.add_0_r.
      f_equal. apply positions_from_absent.
      destruct (existsb (String.eqb m) cols) eqn:E; [|reflexivity].
      apply existsb_eqb_In, In_nth_error in E. destruct E as [n Hn].
      exfalso. apply (Hone (S n)); [lia|exact Hn].
    + simpl. destruct (String.eqb_spec c m) as [->|Hne].
      * exfalso. now apply (Hone 0).
      * rewrite (IH (S p) j Hj).
        -- f_equal. lia.
        -- intros j' Hj'. apply (Hone (S j')). lia.
Qed.

Lemma positions_from_twice (p : nat) (cols : list string) (m : string)
  (j1 j2 : nat) :
  j1 < j2 -> nth_error cols j1 = Some m -> nth_error cols j2 = Some m ->
  exists q1 q2 qs, pd.positions_from p cols m = q1 :: q2 :: qs.
Proof.
  revert p j1 j2. induction cols as [|c cols IH]; intros p j1 j2 Hlt H1 H2.
  - now destruct j1.
  - destruct j2 as [|j2]; [lia|]. simpl in H2.
    destruct j1 as [|j1]; simpl in H1.
    + injection H1 as ->. simpl. rewrite String.eqb_refl.
      apply nth_error_In, existsb_eqb_In in H2.
      destruct (positions_from_present (S p) cols m H2) as (q & qs & ->).
      now exists p, q, qs.
    + destruct (IH (S p) j1 j2) as (q1 & q2 & qs & Hq); [lia|assumption..|].
      simpl. rewrite Hq. destruct (String.eqb c m); now eexists; eexists; eexists.
Qed.

Variables (cols : list string) (r : Row) (m : string).

(** X16.  The value of a bar is looked up by the metric's name among the
    column names: a name that labels no column raises [KeyError]; a name
    that labels exactly one column gives the cell of the row in that
    column; a name that labels two columns or more gives not one value but
    the cells of all these columns. *)
Theorem row_getitem_by_label :
  (~ In m cols -> row_getitem cols r m = Raise KeyError)
  /\ (forall j,
        nth_error cols j = Some m ->
        (forall j', j' <> j -> nth_error cols j' <> Some m) ->
        row_getitem cols r m = Return (Scalar (cell_at j r)))
  /\ (forall j1 j2,
        j1 < j2 ->
        nth_error cols j1 = Some m -> nth_error cols j2 = Some m ->
        exists vs,
          row_getitem cols r m = Return (Several vs)
          /\ 2 <= List.length vs).
Proof.
  unfold row_getitem, pd.get_indexer_for. split; [|split].
  - intros Hnot. rewrite positions_from_absent; [reflexivity|].
    destruct (existsb (String.eqb m) cols) eqn:E; [|reflexivity].
    apply existsb_eqb_In in E. contradiction.
  - intros j Hj Hone. now rewrite (positions_from_single 0 cols m j Hj Hone).
  - intros j1 j2 Hlt H1 H2.
    destruct (positions_from_twice 0 cols m j1 j2 Hlt H1 H2)
      as (q1 & q2 & qs & ->).
    eexists. split; [reflexivity|]. simpl. lia.
Qed.

End BarValues.

Lemma row_getitem_by_label_witness :
  row_getitem ["City"; "Score"; "Rank"] (0, [Text "Austin"; Num 7; Num 1])
    "Rank" = Return (Scalar (Num 1))
  /\ exists vs,
      row_getitem ["City"; "Score"; "Score"]
        (0, [Text "Austin"; Num 7; Num 1]) "Score" = Return (Several vs)
      /\ 2 <= List.length vs.
Proof.
  split.
  - apply (proj1 (proj2 (row_getitem_by_label ["City"; "Score"; "Rank"]
                           (0, [Text "Austin"; Num 7; Num 1]) "Rank")) 2).
    + reflexivity.
    + intros [|[|[|[|j']]]] Hne; simpl; try discriminate. lia.
  - apply (proj2 (proj2 (row_getitem_by_label ["City"; "Score"; "Score"]
                           (0, [Text "Austin"; Num 7; Num 1]) "Score")) 1 2).
    + lia.
    + reflexivity.
    + reflexivity.
Defined.
